(** * SARIF formatter of semgrep: a shallow embedding and its properties

    The development follows [cli/src/semgrep/formatter/sarif.py].  Python
    dictionaries that end up in the SARIF document are insertion-ordered
    association lists ([json]); dictionaries that are only read (rule
    metadata, the dictionary of a structured error) are finite maps.  A
    raised exception is the [Raise] result of the error monad [res].

    Text is modelled by [string], read as ASCII text: [len] is
    [String.length] and the order of [sorted] is the order of the
    character codes. *)

From stdpp Require Import base option list gmap strings fin_maps pretty sorting.
From Stdlib Require Import ZArith String Ascii Lia OrderedTypeEx.

Open Scope string_scope.
Open Scope Z_scope.
Open Scope list_scope.

(** ** Exceptions as results *)

Inductive exn : Type :=
| OSError            (* a source file could not be read *)
| KeyError           (* [d[k]] on a dictionary without [k] *)
| TypeError          (* an operation applied to a value of the wrong kind *)
| UnboundLocalError. (* a local read before any branch assigned it *)

Inductive res (A : Type) : Type :=
| Ok (a : A)
| Raise (e : exn).
Arguments Ok {A} a.
Arguments Raise {A} e.

#[global] Instance res_ret : MRet res := fun _ a => Ok a.
#[global] Instance res_bind : MBind res :=
  fun _ _ f m => match m with Ok a => f a | Raise e => Raise e end.
#[global] Instance res_fmap : FMap res :=
  fun _ _ f m => match m with Ok a => Ok (f a) | Raise e => Raise e end.

(** ** Python string operations *)

Module Py.

Definition newline : ascii := "010"%char.

(** [str.isspace] on ASCII characters: tab, line feed, vertical tab, form
    feed, carriage return, the four separators 0x1c..0x1f, and space. *)
Definition isspace (c : ascii) : bool :=
  let n := nat_of_ascii c in
  ((9 <=? n) && (n <=? 13) || (28 <=? n) && (n <=? 32))%nat.

(** [s.lstrip(chars)], with the set of characters as a predicate. *)
Fixpoint lstrip_by (p : ascii -> bool) (s : string) : string :=
  match s with
  | EmptyString => EmptyString
  | String c s' => if p c then lstrip_by p s' else s
  end.

(** [s.rstrip(chars)]: a character is dropped when it is in the set and
    everything after it has been dropped. *)
Fixpoint rstrip_by (p : ascii -> bool) (s : string) : string :=
  match s with
  | EmptyString => EmptyString
  | String c s' =>
      match rstrip_by p s' with
      | EmptyString => if p c then EmptyString else String c EmptyString
      | r => String c r
      end
  end.

Definition is_newline (c : ascii) : bool := Ascii.eqb c newline.

Definition lstrip_nl : string -> string := lstrip_by is_newline.  (* s.lstrip("\n") *)
Definition rstrip_nl : string -> string := rstrip_by is_newline.  (* s.rstrip("\n") *)
Definition rstrip : string -> string := rstrip_by isspace.        (* s.rstrip() *)
Definition strip (s : string) : string := lstrip_by isspace (rstrip_by isspace s).

Definition lower_ascii (c : ascii) : ascii :=
  let n := nat_of_ascii c in
  if ((65 <=? n) && (n <=? 90))%nat then ascii_of_nat (n + 32) else c.

(** [s.lower()] *)
Fixpoint lower (s : string) : string :=
  match s with
  | EmptyString => EmptyString
  | String c s' => String (lower_ascii c) (lower s')
  end.

(** ["".join(xs)] and [sep.join(xs)] *)
Definition join (xs : list string) : string := String.concat "" xs.
Definition join_with (sep : string) (xs : list string) : string := String.concat sep xs.

(** [len(s)] *)
Definition len (s : string) : Z := Z.of_nat (String.length s).

(** [str(n)] for an integer. *)
Definition str_int (n : Z) : string := pretty n.

(** [needle in s] for two strings. *)
Fixpoint contains (needle s : string) : bool :=
  String.prefix needle s
  || match s with
     | EmptyString => false
     | String _ s' => contains needle s'
     end.

(** The one-character pieces a string yields when iterated. *)
Fixpoint chars (s : string) : list string :=
  match s with
  | EmptyString => []
  | String c s' => String c EmptyString :: chars s'
  end.

End Py.

(** ** JSON-like values: what the formatter builds and serialises *)

#[local] Unset Elimination Schemes.
Inductive json : Type :=
| JNull
| JBool (b : bool)
| JInt (n : Z)
| JStr (s : string)
| JList (l : list json)
| JDict (d : list (string * json)).
#[local] Set Elimination Schemes.

(** Python dictionaries keep insertion order; keys are unique. *)
Fixpoint dict_get (k : string) (d : list (string * json)) : option json :=
  match d with
  | [] => None
  | (k', v) :: d' => if String.eqb k k' then Some v else dict_get k d'
  end.

(** [d[k] = v]: the value is replaced in place, or the pair is added last. *)
Fixpoint dict_set (k : string) (v : json) (d : list (string * json)) : list (string * json) :=
  match d with
  | [] => [(k, v)]
  | (k', v') :: d' => if String.eqb k k' then (k, v) :: d' else (k', v') :: dict_set k v d'
  end.

Fixpoint dict_del (k : string) (d : list (string * json)) : list (string * json) :=
  match d with
  | [] => []
  | (k', v') :: d' => if String.eqb k k' then d' else (k', v') :: dict_del k d'
  end.

(** The field of a JSON value, and a path of fields. *)
Definition field (k : string) (j : json) : option json :=
  match j with
  | JDict d => dict_get k d
  | _ => None
  end.

Fixpoint at_path (ks : list string) (j : json) : option json :=
  match ks with
  | [] => Some j
  | k :: ks' => match field k j with Some j' => at_path ks' j' | None => None end
  end.

(** ** The data the formatter reads ([semgrep_output_v1], [RuleMatch]) *)

Record Position : Type := { line : Z; col : Z }.

(** [out.Location]; [path] is [location.path.value]. *)
Record Location : Type := { path : string; start : Position; end_ : Position }.

(** [out.CliMatchIntermediateVar].  The content is joined with ["".join];
    a Python [str] is the list of its characters. *)
Record CliMatchIntermediateVar : Type :=
  { location : Location; content : list string }.

(** A taint object, as [_rec_taint_obj_to_thread_flow_locations_sarif]
    tells its argument apart with [isinstance]:
    - [CliLoc loc content]: [value = (loc, content)];
    - [CliCall loc content vars inner]: [value = ((loc, content), vars, inner)];
    - [CliMatchCallTrace value];
    - [PyNone]: [None], for an absent trace. *)
Inductive taint_obj : Type :=
| PyNone
| CliLoc (loc : Location) (snippet : list string)
| CliCall (loc : Location) (snippet : list string)
          (vars : list CliMatchIntermediateVar) (inner : taint_obj)
| CliMatchCallTrace (value : taint_obj).

(** Truth value of an optional object: only [None] is false. *)
Definition truthy (t : taint_obj) : bool :=
  match t with PyNone => false | _ => true end.

Record DataflowTrace : Type :=
  { taint_source : taint_obj;
    intermediate_vars : option (list CliMatchIntermediateVar);
    taint_sink : taint_obj }.

Record RuleMatch : Type :=
  { rule_id : string;
    message : string;
    rm_path : string;                      (* str(rule_match.path) *)
    rm_start : Position;
    rm_end : Position;
    lines : list string;
    match_based_id : string;
    fixed_lines : option (list string);    (* rule_match.extra.get("fixed_lines") *)
    is_ignored : bool;
    exposure_type : option string;
    dataflow_trace : option DataflowTrace }.

(** ** The taint translator *)

Section Taint.

(** [semgrep.util.get_lines path a b]: the lines [a..b] of a file, or an
    exception when the file cannot be read. *)
Variable get_lines : string -> Z -> Z -> res (list string).

(** Two lines before the taint and two lines after, with the offsets of
    the highlighted range. *)
Definition _generate_taint_snippet (location : Location) : res (string * Z * Z) :=
  text ← get_lines (path location) (line (start location)) (line (end_ location) + 2);
  let content := Py.rstrip_nl (Py.join text) in
  before ← get_lines (path location) (line (start location) - 2) (line (end_ location) - 1);
  let snippet_before := Py.lstrip_nl (Py.join before) in
  let start_highlight := Py.len snippet_before + col (start location) in
  let end_hightlight := Py.len snippet_before + col (end_ location) in
  mret (Py.join [snippet_before; content], start_highlight, end_hightlight).

Definition location_message (var_type snippet : string) (location : Location) : string :=
  var_type +:+ ": '" +:+ Py.strip snippet +:+ "' @ '" +:+ path location +:+ ":"
    +:+ Py.str_int (line (start location)) +:+ "'".

Definition _create_sarif_location_dict
    (var_type snippet : string) (location : Location) (rule_match : RuleMatch)
    (nesting_level : Z) : res json :=
  let message := location_message var_type snippet location in
  '(extended_snippet, start_highlight, end_highlight) ← _generate_taint_snippet location;
  let sarif_dict :=
    [("location",
      JDict [("message", JDict [("text", JStr message)]);
             ("physicalLocation",
              JDict [("artifactLocation", JDict [("uri", JStr (rm_path rule_match))]);
                     ("region",
                      JDict [("startLine", JInt (line (start location)));
                             ("startColumn", JInt start_highlight);
                             ("endLine", JInt (line (end_ location)));
                             ("endColumn", JInt end_highlight);
                             ("snippet", JDict [("text", JStr extended_snippet)]);
                             ("message", JDict [("text", JStr message)])])])])] in
  mret (JDict (if Z.eqb nesting_level (-1) then sarif_dict
               else dict_set "nestingLevel" (JInt nesting_level) sarif_dict)).

Definition _taint_obj_intermediate_vars_to_thread_flow_locations_sarif
    (intermediate_var : CliMatchIntermediateVar) (rule_match : RuleMatch) : res json :=
  _create_sarif_location_dict "Propagator " (Py.join (content intermediate_var))
    (location intermediate_var) rule_match 0.

Fixpoint _rec_taint_obj_to_thread_flow_locations_sarif
    (var_type : string) (taint_obj : taint_obj) (rule_match : RuleMatch)
    : res (list json) :=
  taint_trace ←
    match taint_obj with
    | CliMatchCallTrace value =>
        _rec_taint_obj_to_thread_flow_locations_sarif var_type value rule_match
    | CliCall _ _ vars inner =>
        nested ← _rec_taint_obj_to_thread_flow_locations_sarif var_type inner rule_match;
        steps ← mapM (fun intermediate_var =>
                   _taint_obj_intermediate_vars_to_thread_flow_locations_sarif
                     intermediate_var rule_match) vars;
        mret (nested ++ steps)
    | _ => mret []
    end;
  let terminal :=
    match taint_obj with
    | CliLoc location snippet => Some (var_type, location, Py.join snippet)
    | CliCall location snippet _ _ => Some ("Propagator ", location, Py.join snippet)
    | _ => None
    end in
  match terminal with
  | None => mret taint_trace
  | Some (var_type, location, snippet) =>
      let '(nesting_level, snippet) :=
        if String.eqb (Py.lower var_type) "sink"
        then (1, Py.join (lines rule_match))
        else (0, snippet) in
      entry ← _create_sarif_location_dict var_type snippet location rule_match nesting_level;
      mret (taint_trace ++ [entry])
  end.

Definition _taint_source_to_thread_flow_locations_sarif (rule_match : RuleMatch)
    : res (option (list json)) :=
  match dataflow_trace rule_match with
  | None => mret None
  | Some dataflow_trace =>
      if negb (truthy (taint_source dataflow_trace)) then mret None
      else Some <$> _rec_taint_obj_to_thread_flow_locations_sarif
                      "Source" (taint_source dataflow_trace) rule_match
  end.

Definition _intermediate_vars_to_thread_flow_locations_sarif (rule_match : RuleMatch)
    : res (option (list json)) :=
  match dataflow_trace rule_match with
  | None => mret None
  | Some dataflow_trace =>
      match intermediate_vars dataflow_trace with
      | None | Some [] => mret None
      | Some intermediate_vars =>
          Some <$> mapM (fun intermediate_var =>
                     _create_sarif_location_dict "Propagator "
                       (Py.join (content intermediate_var))
                       (location intermediate_var) rule_match 0) intermediate_vars
      end
  end.

(** [locations += xs]: adding [None] to a list is a [TypeError]. *)
Definition iadd (locations : list json) (xs : option (list json)) : res (list json) :=
  match xs with
  | Some xs => mret (locations ++ xs)
  | None => Raise TypeError
  end.

Definition _dataflow_trace_to_thread_flows_sarif (rule_match : RuleMatch)
    : res (option (list json)) :=
  match dataflow_trace rule_match with
  | None => mret None
  | Some dataflow_trace =>
      let locations := [] in
      locations ←
        (if truthy (taint_source dataflow_trace)
         then _taint_source_to_thread_flow_locations_sarif rule_match ≫= iadd locations
         else mret locations);
      locations ←
        match intermediate_vars dataflow_trace with
        | None | Some [] => mret locations
        | Some _ =>
            intermediate_var_locations ←
              _intermediate_vars_to_thread_flow_locations_sarif rule_match;
            match intermediate_var_locations with
            | None | Some [] => mret locations
            | Some intermediate_var_locations =>
                mret (locations ++ intermediate_var_locations)
            end
        end;
      sink ← _rec_taint_obj_to_thread_flow_locations_sarif
                "Sink" (taint_sink dataflow_trace) rule_match;
      let sink_thread_trace := reverse sink in
      let locations := locations ++ sink_thread_trace in
      mret (Some [JDict [("locations", JList locations)]])
  end.

Definition codeflow_message (location : Location) (rule_match : RuleMatch) : string :=
  "Untrusted dataflow from " +:+ path location +:+ ":"
    +:+ Py.str_int (line (start location)) +:+ " to " +:+ rm_path rule_match +:+ ":"
    +:+ Py.str_int (line (rm_start rule_match)).

Definition _dataflow_trace_to_codeflow_sarif (rule_match : RuleMatch)
    : res (option json) :=
  match dataflow_trace rule_match with
  | None => mret None
  | Some dataflow_trace =>
      if negb (truthy (taint_source dataflow_trace)) then mret None
      else
        (* [location] is assigned only when [taint_source.value] is a
           [CliCall] or a [CliLoc]; the message reads it. *)
        location ←
          match taint_source dataflow_trace with
          | CliMatchCallTrace (CliCall location _ _ _) => Ok location
          | CliMatchCallTrace (CliLoc location _) => Ok location
          | _ => Raise UnboundLocalError
          end;
        let code_flow_sarif :=
          [("message", JDict [("text", JStr (codeflow_message location rule_match))])] in
        thread_flows ← _dataflow_trace_to_thread_flows_sarif rule_match;
        match thread_flows with
        | None | Some [] => mret (Some (JDict code_flow_sarif))
        | Some thread_flows =>
            mret (Some (JDict (dict_set "threadFlows" (JList thread_flows) code_flow_sarif)))
        end
  end.

(** The dictionary [_create_sarif_location_dict] returns, once the
    snippet has been read. *)
Definition location_dict (var_type snippet : string) (loc : Location)
    (rm : RuleMatch) (lvl : Z) (ext : string) (s e : Z) : json :=
  let text := JDict [("text", JStr (location_message var_type snippet loc))] in
  JDict [("location",
          JDict [("message", text);
                 ("physicalLocation",
                  JDict [("artifactLocation", JDict [("uri", JStr (rm_path rm))]);
                         ("region",
                          JDict [("startLine", JInt (line (start loc)));
                                 ("startColumn", JInt s);
                                 ("endLine", JInt (line (end_ loc)));
                                 ("endColumn", JInt e);
                                 ("snippet", JDict [("text", JStr ext)]);
                                 ("message", text)])])]);
         ("nestingLevel", JInt lvl)].

(** [emitted rm loc d]: [d] is the thread-flow location built for a step
    at [loc], with some role, some snippet text and level 0 or 1. *)
Definition emitted (rm : RuleMatch) (loc : Location) (d : json) : Prop :=
  exists var_type snippet lvl,
    (lvl = 0 \/ lvl = 1) /\ _create_sarif_location_dict var_type snippet loc rm lvl = Ok d.

(** The locations of the steps of a taint object, in the order the
    flattener visits them. *)
Fixpoint taint_steps (t : taint_obj) : list Location :=
  match t with
  | PyNone => []
  | CliLoc loc _ => [loc]
  | CliCall loc _ vars inner => taint_steps inner ++ map location vars ++ [loc]
  | CliMatchCallTrace value => taint_steps value
  end.

(** The location list of section "Thread-Flow Assembler": the flattened
    source, one location per intermediate variable, and the flattened sink
    reversed. *)
Definition assembled_locations (rule_match : RuleMatch) (trace : DataflowTrace)
    : res (list json) :=
  source ← (if truthy (taint_source trace)
            then _rec_taint_obj_to_thread_flow_locations_sarif
                   "Source" (taint_source trace) rule_match
            else mret []);
  steps ← mapM (fun intermediate_var =>
                  _taint_obj_intermediate_vars_to_thread_flow_locations_sarif
                    intermediate_var rule_match)
               (default [] (intermediate_vars trace));
  sink ← _rec_taint_obj_to_thread_flow_locations_sarif
            "Sink" (taint_sink trace) rule_match;
  mret (source ++ steps ++ reverse sink).

(** The steps of a whole trace, in the order of the assembled list. *)
Definition trace_steps (trace : DataflowTrace) : list Location :=
  taint_steps (taint_source trace)
    ++ map location (default [] (intermediate_vars trace))
    ++ reverse (taint_steps (taint_sink trace)).

(** The text of the snippet extractor's contract: two lines before the
    span, the span, two lines after it. *)
Definition snippet_contract (location : Location) : res (string * Z * Z) :=
  text ← get_lines (path location) (line (start location)) (line (end_ location) + 2);
  before ← get_lines (path location) (line (start location) - 2) (line (start location) - 1);
  let before := Py.lstrip_nl (Py.join before) in
  mret (before +:+ Py.rstrip_nl (Py.join text),
        Py.len before + col (start location),
        Py.len before + col (end_ location)).

(** The thread-flow locations the taint translator produces: an element of
    a flattened taint object, the location of one intermediate variable,
    an element of the intermediate-variable list of a match, an element of
    the locations of an assembled thread flow. *)
Inductive thread_flow_location (rule_match : RuleMatch) (d : json) : Prop :=
| from_flattener var_type taint_obj l :
    _rec_taint_obj_to_thread_flow_locations_sarif var_type taint_obj rule_match = Ok l ->
    d ∈ l -> thread_flow_location rule_match d
| from_call_variable intermediate_var :
    _taint_obj_intermediate_vars_to_thread_flow_locations_sarif
      intermediate_var rule_match = Ok d ->
    thread_flow_location rule_match d
| from_intermediate_vars l :
    _intermediate_vars_to_thread_flow_locations_sarif rule_match = Ok (Some l) ->
    d ∈ l -> thread_flow_location rule_match d
| from_thread_flows thread_flows l :
    _dataflow_trace_to_thread_flows_sarif rule_match = Ok (Some thread_flows) ->
    JDict [("locations", JList l)] ∈ thread_flows ->
    d ∈ l -> thread_flow_location rule_match d.

End Taint.

(** ** Source files *)

(** Modelled from the spec: [semgrep.util.get_lines] is imported, not
    defined, by the formatter.  The file-system contract is "read lines
    [a,b] of file at path p, returning available lines even if the range
    partly exceeds file length; failure if the file is inaccessible".  Lines
    are numbered from 1 and keep their line break; a range that starts
    before line 1 gives the lines from line 1 on. *)
Definition fs_get_lines (fs : gmap string (list string))
    (p : string) (a b : Z) : res (list string) :=
  match fs !! p with
  | None => Raise OSError
  | Some ls =>
      let a := Z.max a 1 in
      Ok (take (Z.to_nat (b - a + 1)) (drop (Z.to_nat (a - 1)) ls))
  end.

(** ** Rules *)

(** Modelled from the spec: [semgrep.constants.RuleSeverity] is imported,
    not defined, by the formatter; the data model gives the enumeration
    INFO / WARNING / ERROR. *)
Inductive RuleSeverity : Type := INFO | WARNING | ERROR.

(** What [rule.severity] can hold: one of the three members the mapping
    lists, or any other (hashable) value, whatever it is. *)
Inductive severity_value : Type :=
| Member (s : RuleSeverity)
| NotMember (v : string).

(** The values of the free-form metadata mapping: a string, a list of
    strings, or a dictionary from strings to strings. *)
Inductive value : Type :=
| VStr (s : string)
| VList (l : list string)
| VDict (d : gmap string string).

Record Rule : Type :=
  { id : string;
    rule_message : string;
    severity : severity_value;
    metadata : gmap string value }.

(** Truth value of a metadata value: empty strings, lists and dictionaries
    are false. *)
Definition value_truthy (v : value) : bool :=
  match v with
  | VStr s => negb (String.eqb s "")
  | VList l => match l with [] => false | _ => true end
  | VDict d => negb (bool_decide (d = ∅))
  end.

(** [k in v] *)
Definition value_contains (k : string) (v : value) : bool :=
  match v with
  | VStr s => Py.contains k s
  | VList l => bool_decide (k ∈ l)
  | VDict d => bool_decide (is_Some (d !! k))
  end.

(** [v[k]] with a string key *)
Definition value_getitem (v : value) (k : string) : res string :=
  match v with
  | VDict d => match d !! k with Some x => Ok x | None => Raise KeyError end
  | _ => Raise TypeError
  end.

(** The strings [for x in v] goes through: the characters of a string, the
    items of a list, the keys of a dictionary. *)
Definition value_iter (v : value) : list string :=
  match v with
  | VStr s => Py.chars s
  | VList l => l
  | VDict d => (map_to_list d).*1
  end.

Definition json_of_value (v : value) : json :=
  match v with
  | VStr s => JStr s
  | VList l => JList (JStr <$> l)
  | VDict d => JDict (prod_map Datatypes.id JStr <$> map_to_list d)
  end.

(** The order of Python strings. *)
Definition str_le (s1 s2 : string) : Prop := String.leb s1 s2 = true.

#[global] Instance str_le_dec s1 s2 : Decision (str_le s1 s2).
Proof. unfold str_le. apply _. Defined.

(** [sorted(xs)] on strings.  The order is total and antisymmetric, so
    every sorting algorithm returns the same list. *)
Definition sorted (xs : list string) : list string := merge_sort str_le xs.

Section Rules.

(** [repr v], which an f-string shows for a value that is not a string. *)
Variable repr : value -> string.

(** The order in which a Python [set] with the given distinct elements is
    iterated; it depends on the hashes of the process. *)
Variable set_iter : list string -> list string.

(** [f"{v}"] *)
Definition format_value (v : value) : string :=
  match v with
  | VStr s => s
  | _ => repr v
  end.

(** [set(xs)]: lists and dictionaries are unhashable. *)
Definition hashable (v : value) : res string :=
  match v with
  | VStr s => Ok s
  | _ => Raise TypeError
  end.

Definition set (xs : list value) : res (list string) :=
  elems ← mapM hashable xs;
  mret (set_iter (remove_dups elems)).

Definition severity_mapping : list (RuleSeverity * string) :=
  [(INFO, "note"); (WARNING, "warning"); (ERROR, "error")].

#[global] Instance RuleSeverity_eq_dec : EqDecision RuleSeverity.
Proof. solve_decision. Defined.

(** [mapping[key]] *)
Fixpoint getitem (mapping : list (RuleSeverity * string)) (key : severity_value)
    : res string :=
  match mapping with
  | [] => Raise KeyError
  | (k, v) :: mapping' =>
      match key with
      | Member s => if bool_decide (s = k) then Ok v else getitem mapping' key
      | NotMember _ => getitem mapping' key
      end
  end.

Definition _rule_to_sarif_severity (rule : Rule) : res string :=
  getitem severity_mapping (severity rule).

Definition _rule_to_sarif_tags (rule : Rule) : res (list string) :=
  let result : list value := [] in
  let result :=
    match metadata rule !! "cwe" with
    | Some cwe =>
        (result ++ match cwe with VList l => VStr <$> l | _ => [cwe] end)
          ++ [VStr "security"]
    | None => result
    end in
  let result :=
    match metadata rule !! "owasp" with
    | Some owasp =>
        result ++ match owasp with
                  | VList l => (fun o => VStr ("OWASP-" +:+ o)) <$> l
                  | _ => [VStr ("OWASP-" +:+ format_value owasp)]
                  end
    | None => result
    end in
  let result :=
    match metadata rule !! "confidence" with
    | Some confidence =>
        if value_truthy confidence
        then result ++ [VStr (format_value confidence +:+ " CONFIDENCE")]
        else result
    | None => result
    end in
  result ←
    match metadata rule !! "semgrep.policy" with
    | Some policy =>
        if value_contains "slug" policy
        then slug ← value_getitem policy "slug"; mret (result ++ [VStr slug])
        else mret result
    | None => mret result
    end;
  let result :=
    result ++ (VStr <$> value_iter (default (VList []) (metadata rule !! "tags"))) in
  sorted <$> set result.

Definition _rule_to_sarif (rule : Rule) : res json :=
  severity ← _rule_to_sarif_severity rule;
  tags ← _rule_to_sarif_tags rule;
  let security_severity := metadata rule !! "security-severity" in
  let rule_json :=
    [("id", JStr (id rule));
     ("name", JStr (id rule));
     ("shortDescription", JDict [("text", JStr ("Semgrep Finding: " +:+ id rule))]);
     ("fullDescription", JDict [("text", JStr (rule_message rule))]);
     ("defaultConfiguration", JDict [("level", JStr severity)]);
     ("properties",
      JDict (match security_severity with
             | Some security_severity =>
                 [("precision", JStr "very-high");
                  ("tags", JList (JStr <$> tags));
                  ("security-severity", json_of_value security_severity)]
             | None =>
                 [("precision", JStr "very-high"); ("tags", JList (JStr <$> tags))]
             end))] in
  let rule_url := metadata rule !! "source" in
  let references : list string := [] in
  let '(rule_json, references) :=
    match rule_url with
    | Some rule_url =>
        (dict_set "helpUri" (json_of_value rule_url) rule_json,
         references ++ ["[Semgrep Rule](" +:+ format_value rule_url +:+ ")"])
    | None => (rule_json, references)
    end in
  let references :=
    match metadata rule !! "references" with
    | Some ref =>
        if value_truthy ref
        then references ++
               match ref with
               | VList l => (fun r => "[" +:+ r +:+ "](" +:+ r +:+ ")") <$> l
               | _ => ["[" +:+ format_value ref +:+ "](" +:+ format_value ref +:+ ")"]
               end
        else references
    | None => references
    end in
  let nl := String Py.newline "" in
  let rule_json :=
    match references with
    | [] => rule_json
    | _ =>
        let r := Py.join ((fun references_markdown =>
                             " - " +:+ references_markdown +:+ nl) <$> references) in
        dict_set "help"
          (JDict [("text", JStr (rule_message rule));
                  ("markdown",
                   JStr (rule_message rule +:+ nl +:+ nl +:+ "<b>References:</b>"
                           +:+ nl +:+ r))])
          rule_json
    end in
  let rule_json :=
    match metadata rule !! "shortDescription" with
    | Some rule_short_description =>
        if value_truthy rule_short_description
        then dict_set "shortDescription"
               (JDict [("text", json_of_value rule_short_description)]) rule_json
        else rule_json
    | None => rule_json
    end in
  let rule_json :=
    match metadata rule !! "help" with
    | Some rule_help_text =>
        if value_truthy rule_help_text
        then dict_set "help" (JDict [("text", json_of_value rule_help_text)]) rule_json
        else rule_json
    | None => rule_json
    end in
  mret (JDict rule_json).

End Rules.

(** *** The tags a rule is expected to carry *)

(** The metadata fields the tags are derived from have the shapes of the
    rule schema: [cwe] and [owasp] a string or a list of strings,
    [confidence] a string, [semgrep.policy] a dictionary, [tags] a list. *)
Definition str_or_list (v : value) : bool :=
  match v with VDict _ => false | _ => true end.
Definition is_str (v : value) : bool :=
  match v with VStr _ => true | _ => false end.
Definition is_list (v : value) : bool :=
  match v with VList _ => true | _ => false end.
Definition is_dict (v : value) : bool :=
  match v with VDict _ => true | _ => false end.

Definition tags_schema (m : gmap string value) : bool :=
  from_option str_or_list true (m !! "cwe")
  && from_option str_or_list true (m !! "owasp")
  && from_option is_str true (m !! "confidence")
  && from_option is_dict true (m !! "semgrep.policy")
  && from_option is_list true (m !! "tags").

Definition strings_of (v : value) : list string :=
  match v with
  | VStr s => [s]
  | VList l => l
  | VDict _ => []
  end.

Definition cwe_identifiers (m : gmap string value) : list string :=
  from_option strings_of [] (m !! "cwe").

Definition owasp_tags (m : gmap string value) : list string :=
  (fun o => "OWASP-" +:+ o) <$> from_option strings_of [] (m !! "owasp").

Definition policy_slug (m : gmap string value) : list string :=
  match m !! "semgrep.policy" with
  | Some (VDict d) => option_list (d !! "slug")
  | _ => []
  end.

Definition custom_tags (m : gmap string value) : list string :=
  match m !! "tags" with
  | Some (VList l) => l
  | _ => []
  end.

(** The tags as the claim lists them: a confidence tag whenever the
    confidence field is present, and nothing besides the five sources. *)
Definition claimed_tag_pool (m : gmap string value) : list string :=
  cwe_identifiers m
    ++ owasp_tags m
    ++ match m !! "confidence" with
       | Some (VStr c) => [c +:+ " CONFIDENCE"]
       | _ => []
       end
    ++ policy_slug m
    ++ custom_tags m.

(** The tags as amended: the tag "security" comes with a [cwe] field, and
    the confidence tag needs a confidence that is not empty. *)
Definition tag_pool (m : gmap string value) : list string :=
  (cwe_identifiers m ++ match m !! "cwe" with Some _ => ["security"] | None => [] end)
    ++ owasp_tags m
    ++ match m !! "confidence" with
       | Some (VStr c) => if String.eqb c "" then [] else [c +:+ " CONFIDENCE"]
       | _ => []
       end
    ++ policy_slug m
    ++ custom_tags m.

(** ** Results, notifications and the document *)

(** Truth value of a JSON-like value. *)
Definition json_truthy (j : json) : bool :=
  match j with
  | JNull => false
  | JBool b => b
  | JInt n => negb (Z.eqb n 0)
  | JStr s => negb (String.eqb s "")
  | JList l => match l with [] => false | _ => true end
  | JDict d => match d with [] => false | _ => true end
  end.

(** A structured error, through the dictionary [error.to_dict()] gives. *)
Record SemgrepError : Type := { to_dict : gmap string json }.

(** Modelled from the spec: [semgrep.error.Level] is imported, not defined,
    by the formatter; the notification level mapping is over "exactly two
    error levels (ERROR, WARN)", keyed by their lower-case names. *)
Definition error_to_sarif_level : list (string * string) :=
  [("error", "error"); ("warn", "warning")].

(** [mapping[key]] for a dictionary with string keys and any JSON-like
    key: lists and dictionaries are unhashable, other values are absent. *)
Definition level_getitem (mapping : list (string * string)) (key : json) : res string :=
  match key with
  | JStr s =>
      match list_find (fun kv => kv.1 = s) mapping with
      | Some (_, (_, v)) => Ok v
      | None => Raise KeyError
      end
  | JList _ | JDict _ => Raise TypeError
  | _ => Raise KeyError
  end.

(** [d.get(k)]: [None] both for an absent key and for a stored [None]. *)
Definition get_or_None (d : gmap string json) (k : string) : json :=
  default JNull (d !! k).

Definition is_None (j : json) : bool :=
  match j with JNull => true | _ => false end.

Section Document.

Variable get_lines : string -> Z -> Z -> res (list string).
Variable repr : value -> string.
Variable set_iter : list string -> list string.

(** The string encoder of the [json] module: quotes and escapes. *)
Variable encode_basestring : string -> string.

Definition region_of_match (rule_match : RuleMatch) : list (string * json) :=
  [("startLine", JInt (line (rm_start rule_match)));
   ("startColumn", JInt (col (rm_start rule_match)));
   ("endLine", JInt (line (rm_end rule_match)));
   ("endColumn", JInt (col (rm_end rule_match)))].

Definition _rule_match_to_sarif_fix (rule_match : RuleMatch) : option json :=
  let description := "Semgrep rule suggested fix" in
  let nl := String Py.newline "" in
  match fixed_lines rule_match with
  | None | Some [] => None
  | Some fixed_lines =>
      let description_text := message rule_match +:+ nl +:+ " Autofix: " +:+ description in
      Some (JDict
        [("description", JDict [("text", JStr description_text)]);
         ("artifactChanges",
          JList [JDict
            [("artifactLocation", JDict [("uri", JStr (rm_path rule_match))]);
             ("replacements",
              JList [JDict
                [("deletedRegion", JDict (region_of_match rule_match));
                 ("insertedContent",
                  JDict [("text", JStr (Py.join_with nl fixed_lines))])]])]])])
  end.

Definition _rule_match_to_sarif (rule_match : RuleMatch) (dataflow_traces : bool)
    : res json :=
  let rule_match_sarif :=
    [("ruleId", JStr (rule_id rule_match));
     ("message", JDict [("text", JStr (message rule_match))]);
     ("locations",
      JList [JDict
        [("physicalLocation",
          JDict [("artifactLocation",
                  JDict [("uri", JStr (rm_path rule_match));
                         ("uriBaseId", JStr "%SRCROOT%")]);
                 ("region",
                  JDict (("snippet",
                          JDict [("text", JStr (Py.rstrip (Py.join (lines rule_match))))])
                         :: region_of_match rule_match))])]]);
     ("fingerprints", JDict [("matchBasedId/v1", JStr (match_based_id rule_match))]);
     ("properties", JDict [])] in
  rule_match_sarif ←
    (if dataflow_traces && bool_decide (is_Some (dataflow_trace rule_match))
     then
       code_flows ← _dataflow_trace_to_codeflow_sarif get_lines rule_match;
       match code_flows with
       | Some code_flows =>
           if json_truthy code_flows
           then mret (dict_set "codeFlows" (JList [code_flows]) rule_match_sarif)
           else mret rule_match_sarif
       | None => mret rule_match_sarif
       end
     else mret rule_match_sarif);
  let rule_match_sarif :=
    if is_ignored rule_match
    then dict_set "suppressions" (JList [JDict [("kind", JStr "inSource")]]) rule_match_sarif
    else rule_match_sarif in
  let fix_ := _rule_match_to_sarif_fix rule_match in
  let rule_match_sarif :=
    match fix_ with
    | Some fix_ => dict_set "fixes" (JList [fix_]) rule_match_sarif
    | None => rule_match_sarif
    end in
  let rule_match_sarif :=
    match exposure_type rule_match with
    | Some exposure =>
        if negb (String.eqb exposure "")
        then match dict_get "properties" rule_match_sarif with
             | Some (JDict properties) =>
                 dict_set "properties"
                   (JDict (dict_set "exposure" (JStr exposure) properties)) rule_match_sarif
             | _ => rule_match_sarif
             end
        else rule_match_sarif
    | None => rule_match_sarif
    end in
  mret (JDict rule_match_sarif).

Definition _semgrep_error_to_sarif_notification (error : SemgrepError) : res json :=
  let error_dict := to_dict error in
  descriptor ← match error_dict !! "type" with Some x => Ok x | None => Raise KeyError end;
  key ← match error_dict !! "level" with Some x => Ok x | None => Raise KeyError end;
  level ← level_getitem error_to_sarif_level key;
  let message := get_or_None error_dict "message" in
  let message := if is_None message then get_or_None error_dict "long_msg" else message in
  let message :=
    if is_None message then default (JStr "") (error_dict !! "short_msg") else message in
  mret (JDict [("descriptor", JDict [("id", descriptor)]);
               ("message", JDict [("text", message)]);
               ("level", JStr level)]).

(** [json.dumps(obj, sort_keys=True, indent=2)] *)
Definition newline_indent (level : nat) : string :=
  String Py.newline (Py.join (replicate level "  ")).

(** [sorted(dct.items())] compares pairs; the keys of a dictionary are
    distinct, so the values never decide. *)
Definition key_le (a b : string * string) : Prop := str_le a.1 b.1.

#[global] Instance key_le_dec a b : Decision (key_le a b).
Proof. unfold key_le. apply _. Defined.

Definition sort_items (items : list (string * string)) : list (string * string) :=
  merge_sort key_le items.

Fixpoint dumps_at (level : nat) (obj : json) : string :=
  match obj with
  | JNull => "null"
  | JBool true => "true"
  | JBool false => "false"
  | JInt n => Py.str_int n
  | JStr s => encode_basestring s
  | JList [] => "[]"
  | JList l =>
      "[" +:+ newline_indent (S level)
        +:+ Py.join_with ("," +:+ newline_indent (S level)) (List.map (dumps_at (S level)) l)
        +:+ newline_indent level +:+ "]"
  | JDict [] => "{}"
  | JDict d =>
      let items := List.map (fun kv => (kv.1, dumps_at (S level) kv.2)) d in
      "{" +:+ newline_indent (S level)
        +:+ Py.join_with ("," +:+ newline_indent (S level))
              ((fun kv => encode_basestring kv.1 +:+ ": " +:+ kv.2) <$> sort_items items)
        +:+ newline_indent level +:+ "}"
  end.

Definition dumps (obj : json) : string := dumps_at 0 obj.

Definition format (version : string) (rules : list Rule) (rule_matches : list RuleMatch)
    (semgrep_structured_errors : list SemgrepError) (extra : gmap string bool)
    : res string :=
  rules_sarif ← mapM (_rule_to_sarif repr set_iter) rules;
  results ←
    mapM (fun rule_match =>
            dataflow_traces ←
              match extra !! "dataflow_traces" with
              | Some b => Ok b
              | None => Raise KeyError
              end;
            _rule_match_to_sarif rule_match dataflow_traces) rule_matches;
  notifications ← mapM _semgrep_error_to_sarif_notification semgrep_structured_errors;
  let output_dict :=
    JDict
      [("$schema",
        JStr "https://docs.oasis-open.org/sarif/sarif/v2.1.0/os/schemas/sarif-schema-2.1.0.json");
       ("version", JStr "2.1.0");
       ("runs",
        JList [JDict
          [("tool",
            JDict [("driver",
                    JDict [("name", JStr "semgrep");
                           ("semanticVersion", JStr version);
                           ("rules", JList rules_sarif)])]);
           ("results", JList results);
           ("invocations",
            JList [JDict [("executionSuccessful", JBool true);
                          ("toolExecutionNotifications", JList notifications)]])]])] in
  mret (dumps output_dict).

End Document.

(** ** Reading the records that are built *)

(** A step into a JSON-like value: the field of a dictionary or the item of
    a list. *)
Inductive selector : Type :=
| Key (k : string)
| Index (i : nat).

Fixpoint select (steps : list selector) (j : json) : option json :=
  match steps with
  | [] => Some j
  | Key k :: steps' =>
      match j with
      | JDict d => match dict_get k d with Some j' => select steps' j' | None => None end
      | _ => None
      end
  | Index i :: steps' =>
      match j with
      | JList l => match l !! i with Some j' => select steps' j' | None => None end
      | _ => None
      end
  end.

(** The location the summary message of a code flow reads: the terminal
    location of a leaf or of a call that sits under exactly one wrapper. *)
Definition summary_location (source : taint_obj) : option Location :=
  match source with
  | CliMatchCallTrace (CliCall location _ _ _) => Some location
  | CliMatchCallTrace (CliLoc location _) => Some location
  | _ => None
  end.

(** The code flow of a match: the summary message and one thread flow. *)
Definition code_flow_record (location : Location) (rule_match : RuleMatch)
    (locations : list json) : json :=
  JDict [("message", JDict [("text", JStr (codeflow_message location rule_match))]);
         ("threadFlows", JList [JDict [("locations", JList locations)]])].

(** The record of a match, field by field, given the code flow to attach
    if any. *)
Definition result_record (rule_match : RuleMatch) (code_flows : option json) : json :=
  JDict
    ([("ruleId", JStr (rule_id rule_match));
      ("message", JDict [("text", JStr (message rule_match))]);
      ("locations",
       JList [JDict
         [("physicalLocation",
           JDict [("artifactLocation",
                   JDict [("uri", JStr (rm_path rule_match));
                          ("uriBaseId", JStr "%SRCROOT%")]);
                  ("region",
                   JDict (("snippet",
                           JDict [("text", JStr (Py.rstrip (Py.join (lines rule_match))))])
                          :: region_of_match rule_match))])]]);
      ("fingerprints", JDict [("matchBasedId/v1", JStr (match_based_id rule_match))]);
      ("properties",
       JDict match exposure_type rule_match with
             | Some exposure =>
                 if String.eqb exposure "" then [] else [("exposure", JStr exposure)]
             | None => []
             end)]
     ++ match code_flows with
        | Some code_flows => [("codeFlows", JList [code_flows])]
        | None => []
        end
     ++ (if is_ignored rule_match
         then [("suppressions", JList [JDict [("kind", JStr "inSource")]])]
         else [])
     ++ match _rule_match_to_sarif_fix rule_match with
        | Some fix_ => [("fixes", JList [fix_])]
        | None => []
        end).

(** The markdown links of a rule: the rule's source, then its references. *)
Definition reference_links (repr : value -> string) (m : gmap string value)
    : list string :=
  match m !! "source" with
  | Some rule_url => ["[Semgrep Rule](" +:+ format_value repr rule_url +:+ ")"]
  | None => []
  end
  ++ match m !! "references" with
     | Some ref =>
         if value_truthy ref
         then match ref with
              | VList l => (fun r => "[" +:+ r +:+ "](" +:+ r +:+ ")") <$> l
              | _ => ["[" +:+ format_value repr ref +:+ "]("
                        +:+ format_value repr ref +:+ ")"]
              end
         else []
     | None => []
     end.

(** The help of a rule: the help text of the metadata when there is one,
    else the message with the links as markdown when there are links. *)
Definition rule_help (repr : value -> string) (rule : Rule) : option json :=
  let nl := String Py.newline "" in
  let generated :=
    match reference_links repr (metadata rule) with
    | [] => None
    | links =>
        Some (JDict
          [("text", JStr (rule_message rule));
           ("markdown",
            JStr (rule_message rule +:+ nl +:+ nl +:+ "<b>References:</b>" +:+ nl
                    +:+ Py.join ((fun link => " - " +:+ link +:+ nl) <$> links)))])
    end in
  match metadata rule !! "help" with
  | Some rule_help_text =>
      if value_truthy rule_help_text
      then Some (JDict [("text", json_of_value rule_help_text)])
      else generated
  | None => generated
  end.

(** The descriptor of a rule, field by field, given its level and tags. *)
Definition rule_descriptor (repr : value -> string) (rule : Rule)
    (level : string) (tags : list string) : json :=
  JDict
    ([("id", JStr (id rule));
      ("name", JStr (id rule));
      ("shortDescription",
       JDict [("text",
               match metadata rule !! "shortDescription" with
               | Some short =>
                   if value_truthy short then json_of_value short
                   else JStr ("Semgrep Finding: " +:+ id rule)
               | None => JStr ("Semgrep Finding: " +:+ id rule)
               end)]);
      ("fullDescription", JDict [("text", JStr (rule_message rule))]);
      ("defaultConfiguration", JDict [("level", JStr level)]);
      ("properties",
       JDict ([("precision", JStr "very-high"); ("tags", JList (JStr <$> tags))]
              ++ match metadata rule !! "security-severity" with
                 | Some security_severity =>
                     [("security-severity", json_of_value security_severity)]
                 | None => []
                 end))]
     ++ match metadata rule !! "source" with
        | Some rule_url => [("helpUri", json_of_value rule_url)]
        | None => []
        end
     ++ match rule_help repr rule with
        | Some help => [("help", help)]
        | None => []
        end).

(** ** Sample inputs *)

Module Sample.

Definition nl : string := String Py.newline "".

(** A source file of nine lines, and nothing else on disk. *)
Definition nine_lines : gmap string (list string) :=
  {[ "a.py" := ["l1" +:+ nl; "l2" +:+ nl; "l3" +:+ nl;
                "l4" +:+ nl; "l5" +:+ nl; "l6" +:+ nl;
                "l7" +:+ nl; "l8" +:+ nl; "l9" +:+ nl] ]}.

Definition span (l1 c1 l2 c2 : Z) : Location :=
  {| path := "a.py";
     start := {| line := l1; col := c1 |};
     end_ := {| line := l2; col := c2 |} |}.

Definition A := span 3 1 3 2.
Definition B := span 4 1 4 2.
Definition C := span 5 1 5 2.
Definition D := span 6 1 6 2.
Definition E := span 7 1 7 2.

Definition match_with (trace : option DataflowTrace) : RuleMatch :=
  {| rule_id := "rules.taint";
     message := "tainted";
     rm_path := "m.py";
     rm_start := {| line := 8; col := 1 |};
     rm_end := {| line := 8; col := 3 |};
     lines := ["l8" +:+ nl];
     match_based_id := "0123abcd";
     fixed_lines := None;
     is_ignored := false;
     exposure_type := None;
     dataflow_trace := trace |}.

(** Source = Leaf(A), intermediate = [B],
    Sink = Call(inner = Leaf(C), vars = [D], terminal = Leaf(E)). *)
Definition synthetic_trace : DataflowTrace :=
  {| taint_source := CliLoc A ["a"];
     intermediate_vars := Some [ {| location := B; content := ["b"] |} ];
     taint_sink := CliCall E ["e"] [ {| location := D; content := ["d"] |} ] (CliLoc C ["c"]) |}.

Definition synthetic_match : RuleMatch := match_with (Some synthetic_trace).

(** A wrapped source, one intermediate variable, no sink. *)
Definition sinkless_trace : DataflowTrace :=
  {| taint_source := CliMatchCallTrace (CliLoc A ["a"]);
     intermediate_vars := Some [ {| location := B; content := ["b"] |} ];
     taint_sink := PyNone |}.

Definition sinkless_match : RuleMatch := match_with (Some sinkless_trace).

Definition read := fs_get_lines nine_lines.

(** Lines joined by line breaks, without a final one. *)
Definition text (ls : list string) : string := Py.join_with nl ls.

(** A rule whose only metadata is one CWE identifier. *)
Definition cwe_rule : Rule :=
  {| id := "rules.xss";
     rule_message := "cross-site scripting";
     severity := Member WARNING;
     metadata := {[ "cwe" := VStr "CWE-79" ]} |}.

(** A rule with every field the tags are derived from. *)
Definition tagged_rule : Rule :=
  {| id := "rules.sqli";
     rule_message := "SQL injection";
     severity := Member ERROR;
     metadata :=
       {[ "cwe" := VList ["CWE-89"; "CWE-20"];
          "owasp" := VStr "A1";
          "confidence" := VStr "HIGH";
          "semgrep.policy" := VDict {[ "slug" := "rule-board-block" ]};
          "tags" := VList ["sql"; "CWE-89"] ]} |}.

(** An iteration order for sets, and a [repr] for values. *)
Definition reversed (l : list string) : list string := reverse l.
Definition no_repr (v : value) : string := "".

(** A structured error, as a dictionary. *)
Definition syntax_error : SemgrepError :=
  {| to_dict := {[ "type" := JStr "Syntax error";
                   "level" := JStr "warn";
                   "long_msg" := JStr "could not parse a.py" ]} |}.

(** The string encoder on text that needs no escape: quotes around it. *)
Definition quoted (s : string) : string :=
  let q := String (ascii_of_nat 34) "" in q +:+ s +:+ q.

Definition with_traces : gmap string bool := {[ "dataflow_traces" := true ]}.

End Sample.

(** ** More sample inputs *)

Module Cases.

(** A reader for which every file is unreadable. *)
Definition no_files (p : string) (a b : Z) : res (list string) := Raise OSError.

(** The sink of the synthetic trace: a call with one call-site variable. *)
Definition call : taint_obj :=
  CliCall Sample.E ["e"] [ {| location := Sample.D; content := ["d"] |} ]
    (CliLoc Sample.C ["c"]).

(** An ignored match with a two-line fix and an exposure, without trace. *)
Definition fixed_match : RuleMatch :=
  {| rule_id := "rules.eval";
     message := "eval of user input";
     rm_path := "m.py";
     rm_start := {| line := 8; col := 1 |};
     rm_end := {| line := 8; col := 9 |};
     lines := ["eval(x)  " +:+ Sample.nl];
     match_based_id := "89ab4567";
     fixed_lines := Some ["y = parse(x)"; "run(y)"];
     is_ignored := true;
     exposure_type := Some "reachable";
     dataflow_trace := None |}.

(** A rule with a source, two references, a help text, a short description
    and a security severity. *)
Definition documented_rule : Rule :=
  {| id := "rules.eval";
     rule_message := "eval of user input";
     severity := Member INFO;
     metadata :=
       {[ "source" := VStr "https://semgrep.dev/r/rules.eval";
          "references" := VList ["https://a.example"; "https://b.example"];
          "help" := VStr "Do not call eval.";
          "shortDescription" := VStr "eval";
          "security-severity" := VStr "7.5" ]} |}.

(** The tags of [Sample.tagged_rule], listed in another order, the policy
    slug moved to the free-form tags. *)
Definition retagged_rule : Rule :=
  {| id := "rules.sqli";
     rule_message := "SQL injection";
     severity := Member ERROR;
     metadata :=
       {[ "cwe" := VList ["CWE-20"; "CWE-89"; "CWE-20"];
          "owasp" := VList ["A1"];
          "confidence" := VStr "HIGH";
          "tags" := VList ["rule-board-block"; "sql"] ]} |}.

(** A policy that is a string, and a CWE that is a dictionary. *)
Definition string_policy_rule : Rule :=
  {| id := "rules.a";
     rule_message := "a";
     severity := Member INFO;
     metadata := {[ "semgrep.policy" := VStr "no-slug-here" ]} |}.

Definition dict_cwe_rule : Rule :=
  {| id := "rules.b";
     rule_message := "b";
     severity := Member INFO;
     metadata := {[ "cwe" := VDict {[ "id" := "CWE-79" ]} ]} |}.

(** A structured error without level. *)
Definition levelless_error : SemgrepError :=
  {| to_dict := {[ "type" := JStr "Timeout" ]} |}.

Definition without_traces : gmap string bool := {[ "dataflow_traces" := false ]}.



End Cases.

(** ** The last steps of a code flow and of the document *)


(** The list of runs of the document, with its one run, given the
    serialized rules, results and notifications. *)
Definition sarif_runs (version : string)
    (rules_sarif results notifications : list json) : json :=
  JList [JDict
    [("tool",
      JDict [("driver",
              JDict [("name", JStr "semgrep");
                     ("semanticVersion", JStr version);
                     ("rules", JList rules_sarif)])]);
     ("results", JList results);
     ("invocations",
      JList [JDict [("executionSuccessful", JBool true);
                    ("toolExecutionNotifications", JList notifications)]])]].

(** The dictionary [format] hands to [json.dumps]. *)
Definition sarif_document (version : string)
    (rules_sarif results notifications : list json) : json :=
  JDict
    [("$schema",
      JStr "https://docs.oasis-open.org/sarif/sarif/v2.1.0/os/schemas/sarif-schema-2.1.0.json");
     ("version", JStr "2.1.0");
     ("runs", sarif_runs version rules_sarif results notifications)].

(** A run of [n] spaces. *)
Fixpoint spaces (n : nat) : string :=
  match n with
  | O => ""
  | S n' => String " " (spaces n')
  end.

(** * Properties *)

(** ** Reasoning about results *)

Lemma bind_Ok {A B} (m : res A) (f : A -> res B) (b : B) :
  m ≫= f = Ok b -> exists a, m = Ok a /\ f a = Ok b.
Proof. destruct m as [a|e]; simpl; [eauto | discriminate]. Qed.

Lemma fmap_Ok {A B} (f : A -> B) (m : res A) (b : B) :
  f <$> m = Ok b -> exists a, m = Ok a /\ b = f a.
Proof. destruct m as [a|e]; simpl; [intros [= <-]; eauto | discriminate]. Qed.

Lemma mapM_Ok {A B} (f : A -> res B) (l : list A) (k : list B) :
  mapM f l = Ok k -> Forall2 (fun x y => f x = Ok y) l k.
Proof.
  revert k; induction l as [|x l IH]; intros k; simpl.
  - intros [= <-]. constructor.
  - intros H. apply bind_Ok in H as (y & Hy & H).
    apply bind_Ok in H as (k' & Hk' & H). injection H as <-.
    constructor; auto.
Qed.

Lemma mapM_cons {A B} (f : A -> res B) (x : A) (l : list A) :
  mapM f (x :: l) = f x ≫= fun y => mapM f l ≫= fun k => mret (y :: k).
Proof. reflexivity. Qed.

Lemma mapM_ext {A B} (f g : A -> res B) (l : list A) :
  (forall x, f x = g x) -> mapM f l = mapM g l.
Proof.
  intros Hfg. induction l as [|x l IH]; [reflexivity|].
  rewrite !mapM_cons, Hfg, IH. reflexivity.
Qed.

(** Peel the binds of a successful computation, one at a time. *)
Ltac ok_inv :=
  repeat match goal with
    | H : _ ≫= _ = Ok _ |- _ => apply bind_Ok in H as (? & ? & H)
    | H : _ <$> _ = Ok _ |- _ => apply fmap_Ok in H as (? & ? & H)
    | H : mret _ = Ok _ |- _ => injection H as H
    | H : Ok _ = Ok _ |- _ => injection H as H
    | H : Raise _ = Ok _ |- _ => discriminate H
    end.

(** ** Thread-flow locations and the steps they come from *)

Section TaintFacts.

Variable get_lines : string -> Z -> Z -> res (list string).

Local Abbreviation emitted := (emitted get_lines).
Local Abbreviation create := (_create_sarif_location_dict get_lines).
Local Abbreviation flatten := (_rec_taint_obj_to_thread_flow_locations_sarif get_lines).
Local Abbreviation step := (_taint_obj_intermediate_vars_to_thread_flow_locations_sarif get_lines).

Lemma create_Ok var_type snippet loc rm lvl d :
  lvl <> -1 ->
  create var_type snippet loc rm lvl = Ok d ->
  exists ext s e,
    _generate_taint_snippet get_lines loc = Ok (ext, s, e)
    /\ d = location_dict var_type snippet loc rm lvl ext s e.
Proof.
  intros Hlvl H. unfold _create_sarif_location_dict in H.
  apply bind_Ok in H as ([[ext s] e] & Hgen & H).
  injection H as <-. exists ext, s, e. split; [exact Hgen|].
  apply Z.eqb_neq in Hlvl. rewrite Hlvl. reflexivity.
Qed.

Lemma step_emitted rm (vars : list CliMatchIntermediateVar) (l : list json) :
  mapM (fun iv => step iv rm) vars = Ok l ->
  Forall2 (emitted rm) (map location vars) l.
Proof.
  intros H%mapM_Ok. induction H as [|iv d vars l Hd _ IH]; simpl; constructor; auto.
  exists "Propagator ", (Py.join (content iv)), 0. split; [lia | exact Hd].
Qed.

Lemma flatten_emitted rm t : forall var_type l,
  flatten var_type t rm = Ok l -> Forall2 (emitted rm) (taint_steps t) l.
Proof.
  induction t as [|loc sn|loc sn vars inner IH|value IH]; intros var_type l H; simpl in H.
  - injection H as <-. constructor.
  - destruct (String.eqb (Py.lower var_type) "sink"); ok_inv; subst l; simpl;
      repeat constructor; eexists _, _, _; (split; [|eassumption]); lia.
  - ok_inv. subst. simpl. rewrite app_assoc.
    apply Forall2_app; [apply Forall2_app|]; eauto using step_emitted.
    repeat constructor. eexists _, _, _; (split; [|eassumption]); lia.
  - ok_inv. subst. simpl. eauto.
Qed.

End TaintFacts.

(** ** Assembling a thread flow *)

Section ThreadFlows.

Variable get_lines : string -> Z -> Z -> res (list string).

Local Abbreviation create := (_create_sarif_location_dict get_lines).
Local Abbreviation flatten := (_rec_taint_obj_to_thread_flow_locations_sarif get_lines).
Local Abbreviation step := (_taint_obj_intermediate_vars_to_thread_flow_locations_sarif get_lines).
Local Abbreviation thread_flows := (_dataflow_trace_to_thread_flows_sarif get_lines).

Lemma thread_flows_assembled rm dt :
  dataflow_trace rm = Some dt ->
  thread_flows rm
  = (fun l => Some [JDict [("locations", JList l)]]) <$> assembled_locations get_lines rm dt.
Proof.
  intros Hdt. unfold _dataflow_trace_to_thread_flows_sarif, assembled_locations.
  rewrite Hdt. unfold _taint_source_to_thread_flow_locations_sarif,
    _intermediate_vars_to_thread_flow_locations_sarif. rewrite Hdt.
  destruct (truthy (taint_source dt)); simpl.
  - destruct (flatten "Source" (taint_source dt) rm) as [s|e]; simpl; [|reflexivity].
    destruct (intermediate_vars dt) as [[|iv vars]|]; simpl.
    + destruct (flatten "Sink" _ _); simpl; rewrite ?app_nil_r, <- ?app_assoc; reflexivity.
    + unfold _taint_obj_intermediate_vars_to_thread_flow_locations_sarif.
      destruct (create _ _ _ _ _); simpl; [|reflexivity].
      destruct (mapM _ vars); simpl; [|reflexivity].
      destruct (flatten "Sink" _ _); simpl; rewrite ?app_nil_r, <- ?app_assoc; reflexivity.
    + destruct (flatten "Sink" _ _); simpl; rewrite ?app_nil_r, <- ?app_assoc; reflexivity.
  - destruct (intermediate_vars dt) as [[|iv vars]|]; simpl.
    + destruct (flatten "Sink" _ _); simpl; rewrite ?app_nil_r, <- ?app_assoc; reflexivity.
    + unfold _taint_obj_intermediate_vars_to_thread_flow_locations_sarif.
      destruct (create _ _ _ _ _); simpl; [|reflexivity].
      destruct (mapM _ vars); simpl; [|reflexivity].
      destruct (flatten "Sink" _ _); simpl; rewrite ?app_nil_r, <- ?app_assoc; reflexivity.
    + destruct (flatten "Sink" _ _); simpl; rewrite ?app_nil_r, <- ?app_assoc; reflexivity.
Qed.

Lemma assembled_emitted rm dt l :
  assembled_locations get_lines rm dt = Ok l ->
  Forall2 (emitted get_lines rm) (trace_steps dt) l.
Proof.
  unfold assembled_locations, trace_steps. intros H.
  apply bind_Ok in H as (s & Hs & H). ok_inv. subst l.
  apply Forall2_app; [|apply Forall2_app].
  - destruct (truthy (taint_source dt)) eqn:Ht; [eauto using flatten_emitted|].
    destruct (taint_source dt); try discriminate Ht.
    injection Hs as <-. constructor.
  - eauto using step_emitted.
  - apply Forall2_reverse. eauto using flatten_emitted.
Qed.

Lemma emitted_level rm loc d :
  emitted get_lines rm loc d ->
  field "nestingLevel" d = Some (JInt 0) \/ field "nestingLevel" d = Some (JInt 1).
Proof.
  intros (vt & sn & lvl & Hlvl & H).
  apply create_Ok in H as (ext & s & e & _ & ->); [|lia].
  destruct Hlvl as [-> | ->]; [left | right]; reflexivity.
Qed.

Lemma emitted_shape rm loc d :
  emitted get_lines rm loc d ->
  exists var_type snippet lvl ext s e,
    d = location_dict var_type snippet loc rm lvl ext s e.
Proof.
  intros (vt & sn & lvl & Hlvl & H).
  apply create_Ok in H as (ext & s & e & _ & ->); [|lia].
  exists vt, sn, lvl, ext, s, e. reflexivity.
Qed.

(** C1 (amended).  For the trace Source = Leaf(A), intermediate = [B],
    Sink = Call(inner = Leaf(C), vars = [D], terminal = Leaf(E)) the thread
    flow is [A, B, E, D, C].  A is a "Source" at level 0; B, D and the
    terminal E of the call are "Propagator " locations at level 0 with
    their own snippets; the inner leaf C is the "Sink" location, at level
    1, with the joined lines of the match as its snippet. *)
Theorem synthetic_thread_flow_order rm A B C D E sA sB sC sD sE dA dB dC dD dE :
  dataflow_trace rm
    = Some {| taint_source := CliLoc A sA;
              intermediate_vars := Some [ {| location := B; content := sB |} ];
              taint_sink := CliCall E sE [ {| location := D; content := sD |} ]
                              (CliLoc C sC) |} ->
  create "Source" (Py.join sA) A rm 0 = Ok dA ->
  create "Propagator " (Py.join sB) B rm 0 = Ok dB ->
  create "Propagator " (Py.join sE) E rm 0 = Ok dE ->
  create "Propagator " (Py.join sD) D rm 0 = Ok dD ->
  create "Sink" (Py.join (lines rm)) C rm 1 = Ok dC ->
  thread_flows rm = Ok (Some [JDict [("locations", JList [dA; dB; dE; dD; dC])]])
  /\ field "nestingLevel" dA = Some (JInt 0)
  /\ field "nestingLevel" dB = Some (JInt 0)
  /\ field "nestingLevel" dE = Some (JInt 0)
  /\ field "nestingLevel" dD = Some (JInt 0)
  /\ field "nestingLevel" dC = Some (JInt 1).
Proof.
  intros Hdt HA HB HE HD HC. split.
  - rewrite (thread_flows_assembled _ _ Hdt). unfold assembled_locations. simpl.
    unfold _taint_obj_intermediate_vars_to_thread_flow_locations_sarif. simpl.
    rewrite HA, HB, HC, HD, HE. reflexivity.
  - apply create_Ok in HA as (? & ? & ? & _ & ->); [|lia].
    apply create_Ok in HB as (? & ? & ? & _ & ->); [|lia].
    apply create_Ok in HC as (? & ? & ? & _ & ->); [|lia].
    apply create_Ok in HD as (? & ? & ? & _ & ->); [|lia].
    apply create_Ok in HE as (? & ? & ? & _ & ->); [|lia].
    repeat split; reflexivity.
Qed.

Lemma codeflow_Ok rm dt cf :
  dataflow_trace rm = Some dt ->
  _dataflow_trace_to_codeflow_sarif get_lines rm = Ok (Some cf) ->
  exists loc locations,
    taint_steps (taint_source dt) <> []
    /\ truthy (taint_source dt) = true
    /\ assembled_locations get_lines rm dt = Ok locations
    /\ cf = JDict [("message", JDict [("text", JStr (codeflow_message loc rm))]);
                  ("threadFlows", JList [JDict [("locations", JList locations)]])].
Proof.
  intros Hdt H. unfold _dataflow_trace_to_codeflow_sarif in H. rewrite Hdt in H.
  destruct (truthy (taint_source dt)) eqn:Ht; simpl in H; [|discriminate H].
  apply bind_Ok in H as (loc & Hloc & H).
  rewrite (thread_flows_assembled _ _ Hdt) in H.
  destruct (assembled_locations get_lines rm dt) as [locations|]; simpl in H;
    [|discriminate H].
  injection H as <-. exists loc, locations. repeat split; try reflexivity.
  destruct (taint_source dt) as [| | |[]]; try discriminate Hloc; simpl;
    auto using app_cons_not_nil.
  intros Hnil. symmetry in Hnil. revert Hnil. rewrite app_assoc. apply app_cons_not_nil.
Qed.




(** C8.  Each location of an assembled thread flow has the path of the
    match as its [uri], also when the step it was built for lies in another
    file; the path of the step occurs in the message text, and in no other
    field of the location. *)
Theorem thread_flow_uri_is_match_path rm dt locations :
  dataflow_trace rm = Some dt ->
  thread_flows rm = Ok (Some [JDict [("locations", JList locations)]]) ->
  Forall2
    (fun step d =>
       at_path ["location"; "physicalLocation"; "artifactLocation"; "uri"] d
         = Some (JStr (rm_path rm))
       /\ exists var_type snippet lvl ext s e,
            d = location_dict var_type snippet step rm lvl ext s e
            /\ at_path ["location"; "message"; "text"] d
                = Some (JStr (var_type +:+ ": '" +:+ Py.strip snippet +:+ "' @ '"
                                +:+ path step +:+ ":"
                                +:+ Py.str_int (line (start step)) +:+ "'")))
    (trace_steps dt) locations.
Proof.
  intros Hdt H. rewrite (thread_flows_assembled _ _ Hdt) in H. ok_inv.
  injection H as <-.
  eapply Forall2_impl; [eapply assembled_emitted; eassumption|].
  intros loc d Hd. apply emitted_shape in Hd as (vt & sn & lvl & ext & s & e & ->).
  split; [reflexivity|]. exists vt, sn, lvl, ext, s, e. split; reflexivity.
Qed.

(** C9.  With a taint source and no taint sink, flattening the sink gives
    no location and does not raise, and the thread flow is made of the
    flattened source followed by the intermediate variables. *)
Theorem absent_sink_thread_flow rm dt source steps :
  dataflow_trace rm = Some dt ->
  truthy (taint_source dt) = true ->
  taint_sink dt = PyNone ->
  flatten "Source" (taint_source dt) rm = Ok source ->
  mapM (fun intermediate_var => step intermediate_var rm)
       (default [] (intermediate_vars dt)) = Ok steps ->
  flatten "Sink" (taint_sink dt) rm = Ok []
  /\ thread_flows rm = Ok (Some [JDict [("locations", JList (source ++ steps))]]).
Proof.
  intros Hdt Ht Hsink Hsrc Hsteps. rewrite Hsink. split; [reflexivity|].
  rewrite (thread_flows_assembled _ _ Hdt). unfold assembled_locations.
  rewrite Ht, Hsrc, Hsink. simpl. rewrite Hsteps. simpl. rewrite app_nil_r. reflexivity.
Qed.

Lemma Forall2_elem_of_r {A B} (P : A -> B -> Prop) l k y :
  Forall2 P l k -> y ∈ k -> exists x, P x y.
Proof.
  induction 1 as [|x y' l k Hxy _ IH]; intros Hy.
  - inversion Hy.
  - apply elem_of_cons in Hy as [-> | Hy]; eauto.
Qed.

(** C10.  Every thread-flow location of the taint translator has a
    [nestingLevel] field, and its value is 0 or 1. *)
Theorem nesting_level_explicit rm d :
  thread_flow_location get_lines rm d ->
  field "nestingLevel" d = Some (JInt 0) \/ field "nestingLevel" d = Some (JInt 1).
Proof.
  intros [vt t l Hl Hd | iv Hd | l Hl Hd | tfs l Htfs Hin Hd].
  - apply flatten_emitted in Hl.
    destruct (Forall2_elem_of_r _ _ _ _ Hl Hd) as (loc & Hloc).
    eauto using emitted_level.
  - apply (emitted_level rm (location iv)).
    exists "Propagator ", (Py.join (content iv)), 0. split; [lia | exact Hd].
  - unfold _intermediate_vars_to_thread_flow_locations_sarif in Hl.
    destruct (dataflow_trace rm) as [dt|]; [|discriminate Hl].
    destruct (intermediate_vars dt) as [[|iv vars]|]; try discriminate Hl.
    apply fmap_Ok in Hl as (k & Hk & [= ->]).
    apply (step_emitted get_lines rm (iv :: vars)) in Hk as Hall.
    destruct (Forall2_elem_of_r _ _ _ _ Hall Hd) as (loc & Hloc).
    eauto using emitted_level.
  - destruct (dataflow_trace rm) as [dt|] eqn:Hdt.
    + rewrite (thread_flows_assembled _ _ Hdt) in Htfs.
      apply fmap_Ok in Htfs as (k & Hk & [= ->]).
      apply list_elem_of_singleton in Hin. injection Hin as ->.
      apply assembled_emitted in Hk as Hall.
      destruct (Forall2_elem_of_r _ _ _ _ Hall Hd) as (loc & Hloc).
      eauto using emitted_level.
    + unfold _dataflow_trace_to_thread_flows_sarif in Htfs. rewrite Hdt in Htfs.
      discriminate Htfs.
Qed.

End ThreadFlows.

Lemma synthetic_thread_flow_order_witness :
  let rm := Sample.synthetic_match in
  let dA := location_dict "Source" "a" Sample.A rm 0
              (Sample.text ["l1"; "l2"; "l3"; "l4"; "l5"]) 7 8 in
  let dB := location_dict "Propagator " "b" Sample.B rm 0
              (Sample.text ["l2"; "l3"; "l4"; "l5"; "l6"]) 7 8 in
  let dE := location_dict "Propagator " "e" Sample.E rm 0
              (Sample.text ["l5"; "l6"; "l7"; "l8"; "l9"]) 7 8 in
  let dD := location_dict "Propagator " "d" Sample.D rm 0
              (Sample.text ["l4"; "l5"; "l6"; "l7"; "l8"]) 7 8 in
  let dC := location_dict "Sink" "l8" Sample.C rm 1
              (Sample.text ["l3"; "l4"; "l5"; "l6"; "l7"]) 7 8 in
  _dataflow_trace_to_thread_flows_sarif Sample.read rm
    = Ok (Some [JDict [("locations", JList [dA; dB; dE; dD; dC])]])
  /\ field "nestingLevel" dA = Some (JInt 0)
  /\ field "nestingLevel" dB = Some (JInt 0)
  /\ field "nestingLevel" dE = Some (JInt 0)
  /\ field "nestingLevel" dD = Some (JInt 0)
  /\ field "nestingLevel" dC = Some (JInt 1).
Proof.
  intros rm dA dB dE dD dC.
  apply (synthetic_thread_flow_order Sample.read rm
           Sample.A Sample.B Sample.C Sample.D Sample.E ["a"] ["b"] ["c"] ["d"] ["e"]);
    reflexivity.
Defined.

(** C1, as stated, fails: in the thread flow [A, B, E, D, C] of the sample
    trace the location of E is not at nesting level 1. *)
Lemma synthetic_terminal_not_sink :
  ~ (exists dA dB dE dD dC,
       _dataflow_trace_to_thread_flows_sarif Sample.read Sample.synthetic_match
         = Ok (Some [JDict [("locations", JList [dA; dB; dE; dD; dC])]])
       /\ field "nestingLevel" dE = Some (JInt 1)).
Proof.
  intros (dA & dB & dE & dD & dC & H & HE).
  vm_compute in H. injection H as _ _ <- _ _. vm_compute in HE. discriminate HE.
Qed.

(** ** The snippet extractor *)

Section Snippet.

Variable get_lines : string -> Z -> Z -> res (list string).

(** On a span of one line the extractor meets its contract. *)
Lemma single_line_snippet loc :
  line (end_ loc) = line (start loc) ->
  _generate_taint_snippet get_lines loc = snippet_contract get_lines loc.
Proof.
  intros H. unfold _generate_taint_snippet, snippet_contract. rewrite H.
  destruct (get_lines _ _ (line (start loc) + 2)) as [text|]; simpl; [|reflexivity].
  destruct (get_lines _ _ _) as [before|]; simpl; [|reflexivity].
  unfold Py.join at 1. simpl. reflexivity.
Qed.

End Snippet.

(** C2 (the code departs from the claim).  On the span from line 3 to line
    4 of a nine-line file the extractor reads lines 1..3 as the text before
    the span, so line 3 occurs twice in the extended snippet and both
    offsets are counted past it; the contract gives lines 1..6 once, with
    the offsets counted from the end of line 2. *)
Theorem multi_line_span_repeats_lines :
  _generate_taint_snippet Sample.read (Sample.span 3 1 4 2)
    = Ok (Sample.text ["l1"; "l2"; "l3"; "l3"; "l4"; "l5"; "l6"], 10, 11)
  /\ snippet_contract Sample.read (Sample.span 3 1 4 2)
    = Ok (Sample.text ["l1"; "l2"; "l3"; "l4"; "l5"; "l6"], 7, 8).
Proof. split; reflexivity. Qed.

(** ** The theorems at the sample match without a sink *)



Lemma thread_flow_uri_is_match_path_witness :
  exists locations,
    _dataflow_trace_to_thread_flows_sarif Sample.read Sample.sinkless_match
      = Ok (Some [JDict [("locations", JList locations)]])
    /\ Forall2
         (fun step d =>
            at_path ["location"; "physicalLocation"; "artifactLocation"; "uri"] d
              = Some (JStr "m.py")
            /\ exists var_type snippet lvl ext s e,
                 d = location_dict var_type snippet step Sample.sinkless_match lvl ext s e
                 /\ at_path ["location"; "message"; "text"] d
                     = Some (JStr (var_type +:+ ": '" +:+ Py.strip snippet +:+ "' @ '"
                                     +:+ path step +:+ ":"
                                     +:+ Py.str_int (line (start step)) +:+ "'")))
         [Sample.A; Sample.B] locations.
Proof.
  eexists. split; [reflexivity|].
  apply (thread_flow_uri_is_match_path Sample.read Sample.sinkless_match
           Sample.sinkless_trace); reflexivity.
Defined.

Lemma absent_sink_thread_flow_witness :
  let dA := location_dict "Source" "a" Sample.A Sample.sinkless_match 0
              (Sample.text ["l1"; "l2"; "l3"; "l4"; "l5"]) 7 8 in
  let dB := location_dict "Propagator " "b" Sample.B Sample.sinkless_match 0
              (Sample.text ["l2"; "l3"; "l4"; "l5"; "l6"]) 7 8 in
  _rec_taint_obj_to_thread_flow_locations_sarif Sample.read "Sink" PyNone
    Sample.sinkless_match = Ok []
  /\ _dataflow_trace_to_thread_flows_sarif Sample.read Sample.sinkless_match
     = Ok (Some [JDict [("locations", JList ([dA] ++ [dB]))]]).
Proof.
  intros dA dB.
  apply (absent_sink_thread_flow Sample.read Sample.sinkless_match Sample.sinkless_trace);
    reflexivity.
Defined.

Lemma nesting_level_explicit_witness :
  let d := location_dict "Propagator " "b" Sample.B Sample.sinkless_match 0
             (Sample.text ["l2"; "l3"; "l4"; "l5"; "l6"]) 7 8 in
  field "nestingLevel" d = Some (JInt 0) \/ field "nestingLevel" d = Some (JInt 1).
Proof.
  intros d.
  apply (nesting_level_explicit Sample.read Sample.sinkless_match d).
  apply (from_call_variable _ _ _ {| location := Sample.B; content := ["b"] |}).
  reflexivity.
Defined.

(** ** The order of strings and [sorted] *)

#[global] Instance str_le_total : Total str_le.
Proof. intros s1 s2. apply String.leb_total. Qed.

#[global] Instance str_le_antisym : AntiSymm eq str_le.
Proof. intros s1 s2. apply String.leb_antisym. Qed.

Lemma str_le_cases s1 s2 : str_le s1 s2 <-> String_as_OT.lt s1 s2 \/ s1 = s2.
Proof.
  unfold str_le, String.leb. rewrite <- String_as_OT.cmp_lt.
  unfold String_as_OT.cmp. split.
  - destruct (String.compare s1 s2) eqn:Hc; try discriminate; auto.
    right. apply String.compare_eq_iff, Hc.
  - intros [-> | ->]; [reflexivity|].
    destruct (String.compare s2 s2) eqn:Hc; try reflexivity.
    pose proof (String.compare_antisym s2 s2) as Ha. rewrite Hc in Ha. discriminate Ha.
Qed.

#[global] Instance str_le_trans : Transitive str_le.
Proof.
  intros s1 s2 s3. rewrite !str_le_cases.
  intros [H12 | ->] [H23 | ->]; eauto using String_as_OT.lt_trans.
Qed.

Lemma sorted_Permutation l : sorted l ≡ₚ l.
Proof. apply merge_sort_Permutation. Qed.

Lemma sorted_StronglySorted l : StronglySorted str_le (sorted l).
Proof. apply StronglySorted_merge_sort; apply _. Qed.

(** The result of [sorted] does not depend on the order of its input. *)
Lemma sorted_order_irrelevant l1 l2 : l1 ≡ₚ l2 -> sorted l1 = sorted l2.
Proof.
  intros H. apply (StronglySorted_unique str_le); auto using sorted_StronglySorted.
  rewrite !sorted_Permutation. exact H.
Qed.

(** ** The rule serializer *)

Section RuleFacts.

Variable repr : value -> string.

Lemma mapM_hashable (l : list string) : mapM hashable (VStr <$> l) = Ok l.
Proof.
  induction l as [|s l IH]; [reflexivity|].
  rewrite fmap_cons, mapM_cons, IH. reflexivity.
Qed.

Lemma set_strings set_iter (l : list string) :
  set set_iter (VStr <$> l) = Ok (set_iter (remove_dups l)).
Proof. unfold set. rewrite mapM_hashable. reflexivity. Qed.

(** Two iteration orders of the same set give the same sorted list. *)
Lemma sorted_set_order_irrelevant set_iter1 set_iter2 (xs : list value) :
  (forall l, set_iter1 l ≡ₚ l) ->
  (forall l, set_iter2 l ≡ₚ l) ->
  sorted <$> set set_iter1 xs = sorted <$> set set_iter2 xs.
Proof.
  intros H1 H2. unfold set. destruct (mapM hashable xs) as [elems|]; simpl; [|reflexivity].
  f_equal. apply sorted_order_irrelevant. rewrite H1, H2. reflexivity.
Qed.

Lemma tags_order_irrelevant set_iter1 set_iter2 rule :
  (forall l, set_iter1 l ≡ₚ l) ->
  (forall l, set_iter2 l ≡ₚ l) ->
  _rule_to_sarif_tags repr set_iter1 rule = _rule_to_sarif_tags repr set_iter2 rule.
Proof.
  intros H1 H2. unfold _rule_to_sarif_tags.
  match goal with |- ?m ≫= _ = _ => destruct m as [result|]; simpl; [|reflexivity] end.
  apply sorted_set_order_irrelevant; assumption.
Qed.

(** On metadata of the schema's shapes, the tags are the sorted set of the
    amended pool. *)
Lemma tags_of_pool set_iter rule :
  tags_schema (metadata rule) = true ->
  _rule_to_sarif_tags repr set_iter rule
  = Ok (sorted (set_iter (remove_dups (tag_pool (metadata rule))))).
Proof.
  unfold tags_schema, _rule_to_sarif_tags, tag_pool, cwe_identifiers, owasp_tags,
    policy_slug, custom_tags.
  intros Hs. repeat (apply andb_prop in Hs as [Hs ?]).
  assert (Hset : forall l, sorted <$> set set_iter (VStr <$> l)
                           = Ok (sorted (set_iter (remove_dups l)))).
  { intros l. rewrite set_strings. reflexivity. }
  rewrite <- Hset. clear Hset.
  generalize (set set_iter). intros set'.
  destruct (metadata rule !! "cwe") as [[s|l|d]|]; try discriminate;
  destruct (metadata rule !! "owasp") as [[s'|l'|d']|]; try discriminate;
  destruct (metadata rule !! "confidence") as [[c|?|?]|]; try discriminate;
  destruct (metadata rule !! "semgrep.policy") as [[?|?|p]|]; try discriminate;
  destruct (metadata rule !! "tags") as [[?|ts|?]|]; try discriminate;
  simpl.
  all: try (destruct (String.eqb c "") eqn:Hc; simpl).
  all: try (destruct (p !! "slug") as [slug|] eqn:Hslug; simpl).
  all: apply (f_equal (fun x => sorted <$> set' x)).
  all: rewrite ?fmap_app, <- ?list_fmap_compose, ?app_nil_r; simpl.
  all: rewrite <- ?app_assoc; reflexivity.
Qed.

(** C4 (amended).  On metadata of the schema's shapes the tag list is
    free of duplicates, sorted, and made of exactly: the CWE identifiers
    and, with them, the tag "security"; "OWASP-{id}" for each OWASP id;
    "{confidence} CONFIDENCE" for a confidence that is not empty; the
    policy slug; the free-form tags. *)
Theorem tags_sorted_set set_iter rule :
  (forall l, set_iter l ≡ₚ l) ->
  tags_schema (metadata rule) = true ->
  exists tags,
    _rule_to_sarif_tags repr set_iter rule = Ok tags
    /\ NoDup tags
    /\ StronglySorted str_le tags
    /\ forall t, t ∈ tags <-> t ∈ tag_pool (metadata rule).
Proof.
  intros Hiter Hs. eexists. split; [apply tags_of_pool, Hs|].
  split; [|split].
  - rewrite sorted_Permutation, Hiter. apply NoDup_remove_dups.
  - apply sorted_StronglySorted.
  - intros t. rewrite sorted_Permutation, Hiter. apply elem_of_remove_dups.
Qed.

(** C5.  The severity mapping gives "note" for INFO, "warning" for WARNING
    and "error" for ERROR; for any other value the lookup, and with it the
    serialization of the rule, raises [KeyError]. *)
Theorem severity_mapping_exhaustive set_iter rule :
  match severity rule with
  | Member INFO => _rule_to_sarif_severity rule = Ok "note"
  | Member WARNING => _rule_to_sarif_severity rule = Ok "warning"
  | Member ERROR => _rule_to_sarif_severity rule = Ok "error"
  | NotMember _ =>
      _rule_to_sarif_severity rule = Raise KeyError
      /\ _rule_to_sarif repr set_iter rule = Raise KeyError
  end.
Proof.
  unfold _rule_to_sarif, _rule_to_sarif_severity.
  destruct (severity rule) as [[]|v]; simpl; auto.
Qed.

End RuleFacts.

Lemma reversed_Permutation l : Sample.reversed l ≡ₚ l.
Proof. apply reverse_Permutation. Qed.

Lemma tags_sorted_set_witness :
  exists tags,
    _rule_to_sarif_tags Sample.no_repr Sample.reversed Sample.tagged_rule = Ok tags
    /\ NoDup tags
    /\ StronglySorted str_le tags
    /\ forall t, t ∈ tags <-> t ∈ tag_pool (metadata Sample.tagged_rule).
Proof.
  apply (tags_sorted_set Sample.no_repr Sample.reversed Sample.tagged_rule).
  - exact reversed_Permutation.
  - vm_compute. reflexivity.
Defined.

(** C4, as stated, fails: the rule with the single CWE identifier "CWE-79"
    gets the tag "security", which is none of the tags the claim lists. *)
Lemma cwe_rule_gets_security_tag :
  exists tags,
    _rule_to_sarif_tags Sample.no_repr Sample.reversed Sample.cwe_rule = Ok tags
    /\ ~ (forall t, t ∈ tags <-> t ∈ claimed_tag_pool (metadata Sample.cwe_rule)).
Proof.
  exists ["CWE-79"; "security"]. split; [vm_compute; reflexivity|].
  intros H. specialize (H "security"). destruct H as [H _].
  assert (Hin : "security" ∈ ["CWE-79"; "security"]) by (right; left).
  apply H in Hin. vm_compute in Hin.
  apply elem_of_cons in Hin as [Hin | Hin]; [discriminate Hin | inversion Hin].
Qed.

(** ** Result records *)

Section ResultFacts.

Variable get_lines : string -> Z -> Z -> res (list string).

(** C6.  For a match with a populated dataflow trace, the record built
    without dataflow traces has no [codeFlows] field, and a record built
    with them has one and is otherwise the same record: deleting the field
    gives back the first record. *)
Theorem toggle_isolation rm dt :
  dataflow_trace rm = Some dt ->
  truthy (taint_source dt) = true ->
  exists d0,
    _rule_match_to_sarif get_lines rm false = Ok (JDict d0)
    /\ dict_get "codeFlows" d0 = None
    /\ forall r1,
         _rule_match_to_sarif get_lines rm true = Ok r1 ->
         exists d1,
           r1 = JDict d1
           /\ is_Some (dict_get "codeFlows" d1)
           /\ dict_del "codeFlows" d1 = d0.
Proof.
  intros Hdt Ht. unfold _rule_match_to_sarif. rewrite Hdt. simpl.
  destruct (_dataflow_trace_to_codeflow_sarif get_lines rm) as [[cf|]|e] eqn:Hcf; simpl.
  - destruct (codeflow_Ok _ _ _ _ Hdt Hcf) as (loc & locations & _ & _ & _ & ->). simpl.
    destruct (is_ignored rm), (_rule_match_to_sarif_fix rm) as [fx|],
      (exposure_type rm) as [ex|]; simpl;
      try (destruct (String.eqb ex ""); simpl);
      (eexists; split; [reflexivity|]; split; [reflexivity|];
       intros r1 [= <-]; eexists; split; [reflexivity|]; split; [eexists|]; reflexivity).
  - unfold _dataflow_trace_to_codeflow_sarif in Hcf. rewrite Hdt, Ht in Hcf.
    simpl in Hcf. apply bind_Ok in Hcf as (loc & _ & Hcf).
    apply bind_Ok in Hcf as (tfs & _ & Hcf). destruct tfs as [[|]|]; discriminate Hcf.
  - destruct (is_ignored rm), (_rule_match_to_sarif_fix rm) as [fx|],
      (exposure_type rm) as [ex|]; simpl;
      try (destruct (String.eqb ex ""); simpl);
      (eexists; split; [reflexivity|]; split; [reflexivity|]; intros r1 [=]).
Qed.

End ResultFacts.

(** ** The document *)

Section DocumentFacts.

Variable get_lines : string -> Z -> Z -> res (list string).
Variable repr : value -> string.
Variable encode_basestring : string -> string.

Lemma rule_order_irrelevant set_iter1 set_iter2 rule :
  (forall l, set_iter1 l ≡ₚ l) ->
  (forall l, set_iter2 l ≡ₚ l) ->
  _rule_to_sarif repr set_iter1 rule = _rule_to_sarif repr set_iter2 rule.
Proof.
  intros H1 H2. unfold _rule_to_sarif.
  rewrite (tags_order_irrelevant repr set_iter1 set_iter2 rule H1 H2). reflexivity.
Qed.

#[local] Instance key_le_total : Total key_le.
Proof. intros a b. apply str_le_total. Qed.

#[local] Instance key_le_trans : Transitive key_le.
Proof. intros a b c. apply str_le_trans. Qed.

Lemma NoDup_fst_unique {A B} (l : list (A * B)) x y1 y2 :
  NoDup l.*1 -> (x, y1) ∈ l -> (x, y2) ∈ l -> y1 = y2.
Proof.
  induction l as [|[k v] l IH]; simpl; intros Hnd Hin1 Hin2.
  - inversion Hin1.
  - apply NoDup_cons in Hnd as [Hk Hnd].
    assert (Hfst : forall y, (k, y) ∈ l -> False).
    { intros y Hy. apply Hk. apply list_elem_of_fmap. exists (k, y). auto. }
    apply elem_of_cons in Hin1 as [Heq1 | Hin1], Hin2 as [Heq2 | Hin2].
    + congruence.
    + injection Heq1 as -> ->. exfalso. eauto.
    + injection Heq2 as -> ->. exfalso. eauto.
    + eauto.
Qed.

Lemma sort_items_order_irrelevant (items1 items2 : list (string * string)) :
  NoDup items1.*1 -> items1 ≡ₚ items2 -> sort_items items1 = sort_items items2.
Proof.
  intros Hnd Hp. unfold sort_items.
  apply (StronglySorted_unique_strong key_le).
  - intros [k1 v1] [k2 v2] Hin1 Hin2 H12 H21.
    rewrite merge_sort_Permutation in Hin1. rewrite merge_sort_Permutation, <- Hp in Hin2.
    assert (k1 = k2) as -> by (apply str_le_antisym; assumption).
    f_equal. eapply (NoDup_fst_unique items1); eauto.
  - apply (StronglySorted_merge_sort key_le); apply _.
  - apply (StronglySorted_merge_sort key_le); apply _.
  - rewrite !merge_sort_Permutation. exact Hp.
Qed.

(** With sorted keys, the order in which a dictionary was filled does not
    show in the output. *)
Lemma dumps_key_order_irrelevant level (d1 d2 : list (string * json)) :
  NoDup d1.*1 -> d1 ≡ₚ d2 ->
  dumps_at encode_basestring level (JDict d1) = dumps_at encode_basestring level (JDict d2).
Proof.
  intros Hnd Hp.
  destruct d1 as [|kv1 d1], d2 as [|kv2 d2].
  - reflexivity.
  - apply Permutation_nil_l in Hp. discriminate Hp.
  - symmetry in Hp. apply Permutation_nil_l in Hp. discriminate Hp.
  - cbn [dumps_at]. do 3 f_equal. f_equal. f_equal.
    apply sort_items_order_irrelevant.
    + rewrite <- list_fmap_compose. exact Hnd.
    + apply fmap_Permutation, Hp.
Qed.

Lemma newline_indent_spaces level :
  newline_indent level = String Py.newline (spaces (2 * level)).
Proof.
  unfold newline_indent, Py.join. f_equal.
  induction level as [|n IH]; [reflexivity|].
  destruct n as [|n]; [reflexivity|].
  change (String " " (String " " (String.concat "" (replicate (S n) "  ")))
          = spaces (2 * S (S n))).
  rewrite IH. replace (2 * S (S n))%nat with (S (S (2 * S n))) by lia. reflexivity.
Qed.

Lemma keys_sorted (items : list (string * string)) :
  StronglySorted key_le items -> StronglySorted str_le items.*1.
Proof.
  induction 1 as [|kv items _ IH Hall]; simpl; constructor; [exact IH|].
  apply Forall_fmap. exact Hall.
Qed.

(** A dictionary is written with its keys in ascending order, one item per
    line, one level deeper than the braces. *)
Lemma dumps_dict_sorted level (d : list (string * json)) :
  d <> [] ->
  exists items,
    items ≡ₚ (fun kv => (kv.1, dumps_at encode_basestring (S level) kv.2)) <$> d
    /\ StronglySorted str_le items.*1
    /\ dumps_at encode_basestring level (JDict d)
       = "{" +:+ newline_indent (S level)
           +:+ Py.join_with ("," +:+ newline_indent (S level))
                 ((fun kv => encode_basestring kv.1 +:+ ": " +:+ kv.2) <$> items)
           +:+ newline_indent level +:+ "}".
Proof.
  intros Hd. destruct d as [|kv d]; [congruence|].
  exists (sort_items ((fun kv => (kv.1, dumps_at encode_basestring (S level) kv.2))
                        <$> (kv :: d))).
  split; [apply merge_sort_Permutation|]. split.
  - apply keys_sorted. apply (StronglySorted_merge_sort key_le); apply _.
  - reflexivity.
Qed.

Lemma dumps_list_items level (l : list json) :
  l <> [] ->
  dumps_at encode_basestring level (JList l)
  = "[" +:+ newline_indent (S level)
      +:+ Py.join_with ("," +:+ newline_indent (S level))
            (dumps_at encode_basestring (S level) <$> l)
      +:+ newline_indent level +:+ "]".
Proof. intros Hl. destruct l; [congruence | reflexivity]. Qed.

(** The outermost dictionary of the document, as it is written: the keys
    "$schema", "runs" and "version" in ascending order, each on a line of
    its own after two spaces. *)
Lemma document_text version rules_sarif results notifications :
  dumps_at encode_basestring 0 (sarif_document version rules_sarif results notifications)
  = "{" +:+ String Py.newline "  "
      +:+ Py.join_with ("," +:+ String Py.newline "  ")
            [encode_basestring "$schema" +:+ ": "
               +:+ encode_basestring
                     "https://docs.oasis-open.org/sarif/sarif/v2.1.0/os/schemas/sarif-schema-2.1.0.json";
             encode_basestring "runs" +:+ ": "
               +:+ dumps_at encode_basestring 1
                     (sarif_runs version rules_sarif results notifications);
             encode_basestring "version" +:+ ": " +:+ encode_basestring "2.1.0"]
      +:+ String Py.newline "" +:+ "}".
Proof.
  unfold sarif_document.
  generalize (sarif_runs version rules_sarif results notifications).
  intros runs. reflexivity.
Qed.

(** C7.  The output does not depend on the order in which the sets of tags
    are iterated: with the same rules, matches, errors, toggle, version and
    files, two runs give the same text.  The text is the document written
    by the serializer.  A text that is returned begins with the keys
    "$schema", "runs" and "version", in this order, each on its own line
    after two spaces.  At every nesting level a dictionary is written with
    its keys in ascending order, a dictionary and a list with one item per
    line, the items after two more spaces than the enclosing brackets, so
    that the order in which a dictionary was filled does not show. *)
Theorem format_deterministic set_iter1 set_iter2 version rules rule_matches errors
    (extra : gmap string bool) :
  (forall l, set_iter1 l ≡ₚ l) ->
  (forall l, set_iter2 l ≡ₚ l) ->
  format get_lines repr set_iter1 encode_basestring version rules rule_matches errors extra
  = format get_lines repr set_iter2 encode_basestring version rules rule_matches errors extra
  /\ format get_lines repr set_iter1 encode_basestring version rules rule_matches errors extra
     = (rules_sarif ← mapM (_rule_to_sarif repr set_iter2) rules;
        results ←
          mapM (fun rule_match =>
                  dataflow_traces ←
                    match extra !! "dataflow_traces" with
                    | Some b => Ok b
                    | None => Raise KeyError
                    end;
                  _rule_match_to_sarif get_lines rule_match dataflow_traces) rule_matches;
        notifications ← mapM _semgrep_error_to_sarif_notification errors;
        mret (dumps_at encode_basestring 0
                (sarif_document version rules_sarif results notifications)))
  /\ (forall text,
        format get_lines repr set_iter1 encode_basestring version rules rule_matches
          errors extra = Ok text ->
        exists rules_sarif results notifications,
          mapM (_rule_to_sarif repr set_iter2) rules = Ok rules_sarif
          /\ mapM (fun rule_match =>
                     dataflow_traces ←
                       match extra !! "dataflow_traces" with
                       | Some b => Ok b
                       | None => Raise KeyError
                       end;
                     _rule_match_to_sarif get_lines rule_match dataflow_traces)
                  rule_matches = Ok results
          /\ mapM _semgrep_error_to_sarif_notification errors = Ok notifications
          /\ text
             = "{" +:+ String Py.newline "  "
                 +:+ Py.join_with ("," +:+ String Py.newline "  ")
                       [encode_basestring "$schema" +:+ ": "
                          +:+ encode_basestring
                                "https://docs.oasis-open.org/sarif/sarif/v2.1.0/os/schemas/sarif-schema-2.1.0.json";
                        encode_basestring "runs" +:+ ": "
                          +:+ dumps_at encode_basestring 1
                                (sarif_runs version rules_sarif results notifications);
                        encode_basestring "version" +:+ ": "
                          +:+ encode_basestring "2.1.0"]
                 +:+ String Py.newline "" +:+ "}")
  /\ (forall level (d : list (string * json)),
        d <> [] ->
        exists items,
          items ≡ₚ (fun kv => (kv.1, dumps_at encode_basestring (S level) kv.2)) <$> d
          /\ StronglySorted str_le items.*1
          /\ dumps_at encode_basestring level (JDict d)
             = "{" +:+ String Py.newline (spaces (2 * S level))
                 +:+ Py.join_with ("," +:+ String Py.newline (spaces (2 * S level)))
                       ((fun kv => encode_basestring kv.1 +:+ ": " +:+ kv.2) <$> items)
                 +:+ String Py.newline (spaces (2 * level)) +:+ "}")
  /\ (forall level (l : list json),
        l <> [] ->
        dumps_at encode_basestring level (JList l)
        = "[" +:+ String Py.newline (spaces (2 * S level))
            +:+ Py.join_with ("," +:+ String Py.newline (spaces (2 * S level)))
                  (dumps_at encode_basestring (S level) <$> l)
            +:+ String Py.newline (spaces (2 * level)) +:+ "]")
  /\ (forall level (d1 d2 : list (string * json)),
        NoDup d1.*1 -> d1 ≡ₚ d2 ->
        dumps_at encode_basestring level (JDict d1)
        = dumps_at encode_basestring level (JDict d2)).
Proof.
  intros H1 H2.
  assert (Hdoc : forall set_iter, (forall l, set_iter l ≡ₚ l) ->
            format get_lines repr set_iter encode_basestring version rules rule_matches
              errors extra
            = (rules_sarif ← mapM (_rule_to_sarif repr set_iter2) rules;
               results ←
                 mapM (fun rule_match =>
                         dataflow_traces ←
                           match extra !! "dataflow_traces" with
                           | Some b => Ok b
                           | None => Raise KeyError
                           end;
                         _rule_match_to_sarif get_lines rule_match dataflow_traces)
                      rule_matches;
               notifications ← mapM _semgrep_error_to_sarif_notification errors;
               mret (dumps_at encode_basestring 0
                       (sarif_document version rules_sarif results notifications)))).
  { intros set_iter Hiter. unfold format.
    rewrite (mapM_ext (_rule_to_sarif repr set_iter) (_rule_to_sarif repr set_iter2));
      [reflexivity|].
    intros rule. apply rule_order_irrelevant; assumption. }
  split; [|split; [|split; [|split; [|split]]]].
  - rewrite (Hdoc set_iter1 H1), (Hdoc set_iter2 H2). reflexivity.
  - apply Hdoc, H1.
  - intros text Htext. rewrite (Hdoc set_iter1 H1) in Htext.
    apply bind_Ok in Htext as (rules_sarif & Hrules & Htext).
    apply bind_Ok in Htext as (results & Hresults & Htext).
    apply bind_Ok in Htext as (notifications & Hnotifications & Htext).
    injection Htext as <-. exists rules_sarif, results, notifications.
    split; [exact Hrules|]. split; [exact Hresults|].
    split; [exact Hnotifications|]. apply document_text.
  - intros level d Hd. rewrite <- !newline_indent_spaces. apply dumps_dict_sorted, Hd.
  - intros level l Hl. rewrite <- !newline_indent_spaces. apply dumps_list_items, Hl.
  - apply dumps_key_order_irrelevant.
Qed.

End DocumentFacts.

Lemma toggle_isolation_witness :
  exists d0,
    _rule_match_to_sarif Sample.read Sample.sinkless_match false = Ok (JDict d0)
    /\ dict_get "codeFlows" d0 = None
    /\ forall r1,
         _rule_match_to_sarif Sample.read Sample.sinkless_match true = Ok r1 ->
         exists d1,
           r1 = JDict d1
           /\ is_Some (dict_get "codeFlows" d1)
           /\ dict_del "codeFlows" d1 = d0.
Proof.
  apply (toggle_isolation Sample.read Sample.sinkless_match Sample.sinkless_trace);
    reflexivity.
Defined.

Lemma format_deterministic_witness :
  format Sample.read Sample.no_repr Sample.reversed Sample.quoted "1.0"
    [Sample.tagged_rule] [Sample.sinkless_match] [Sample.syntax_error] Sample.with_traces
  = format Sample.read Sample.no_repr (fun l => l) Sample.quoted "1.0"
      [Sample.tagged_rule] [Sample.sinkless_match] [Sample.syntax_error] Sample.with_traces
  /\ format Sample.read Sample.no_repr Sample.reversed Sample.quoted "1.0"
       [Sample.tagged_rule] [Sample.sinkless_match] [Sample.syntax_error]
       Sample.with_traces
     = (rules_sarif ← mapM (_rule_to_sarif Sample.no_repr (fun l => l)) [Sample.tagged_rule];
        results ←
          mapM (fun rule_match =>
                  dataflow_traces ←
                    match Sample.with_traces !! "dataflow_traces" with
                    | Some b => Ok b
                    | None => Raise KeyError
                    end;
                  _rule_match_to_sarif Sample.read rule_match dataflow_traces)
               [Sample.sinkless_match];
        notifications ← mapM _semgrep_error_to_sarif_notification [Sample.syntax_error];
        mret (dumps_at Sample.quoted 0
                (sarif_document "1.0" rules_sarif results notifications)))
  /\ (forall text,
        format Sample.read Sample.no_repr Sample.reversed Sample.quoted "1.0"
          [Sample.tagged_rule] [Sample.sinkless_match] [Sample.syntax_error]
          Sample.with_traces = Ok text ->
        exists rules_sarif results notifications,
          mapM (_rule_to_sarif Sample.no_repr (fun l => l)) [Sample.tagged_rule]
          = Ok rules_sarif
          /\ mapM (fun rule_match =>
                     dataflow_traces ←
                       match Sample.with_traces !! "dataflow_traces" with
                       | Some b => Ok b
                       | None => Raise KeyError
                       end;
                     _rule_match_to_sarif Sample.read rule_match dataflow_traces)
                  [Sample.sinkless_match] = Ok results
          /\ mapM _semgrep_error_to_sarif_notification [Sample.syntax_error]
             = Ok notifications
          /\ text
             = "{" +:+ String Py.newline "  "
                 +:+ Py.join_with ("," +:+ String Py.newline "  ")
                       [Sample.quoted "$schema" +:+ ": "
                          +:+ Sample.quoted
                                "https://docs.oasis-open.org/sarif/sarif/v2.1.0/os/schemas/sarif-schema-2.1.0.json";
                        Sample.quoted "runs" +:+ ": "
                          +:+ dumps_at Sample.quoted 1
                                (sarif_runs "1.0" rules_sarif results notifications);
                        Sample.quoted "version" +:+ ": "
                          +:+ Sample.quoted "2.1.0"]
                 +:+ String Py.newline "" +:+ "}")
  /\ (forall level (d : list (string * json)),
        d <> [] ->
        exists items,
          items ≡ₚ (fun kv => (kv.1, dumps_at Sample.quoted (S level) kv.2)) <$> d
          /\ StronglySorted str_le items.*1
          /\ dumps_at Sample.quoted level (JDict d)
             = "{" +:+ String Py.newline (spaces (2 * S level))
                 +:+ Py.join_with ("," +:+ String Py.newline (spaces (2 * S level)))
                       ((fun kv => Sample.quoted kv.1 +:+ ": " +:+ kv.2) <$> items)
                 +:+ String Py.newline (spaces (2 * level)) +:+ "}")
  /\ (forall level (l : list json),
        l <> [] ->
        dumps_at Sample.quoted level (JList l)
        = "[" +:+ String Py.newline (spaces (2 * S level))
            +:+ Py.join_with ("," +:+ String Py.newline (spaces (2 * S level)))
                  (dumps_at Sample.quoted (S level) <$> l)
            +:+ String Py.newline (spaces (2 * level)) +:+ "]")
  /\ (forall level (d1 d2 : list (string * json)),
        NoDup d1.*1 -> d1 ≡ₚ d2 ->
        dumps_at Sample.quoted level (JDict d1)
        = dumps_at Sample.quoted level (JDict d2)).
Proof.
  apply (format_deterministic Sample.read Sample.no_repr Sample.quoted
           Sample.reversed (fun l => l) "1.0"
           [Sample.tagged_rule] [Sample.sinkless_match] [Sample.syntax_error]
           Sample.with_traces).
  - exact reversed_Permutation.
  - reflexivity.
Defined.

(** The sample document is produced, and begins with its schema key. *)
Example sample_document_is_produced :
  exists text,
    format Sample.read Sample.no_repr Sample.reversed Sample.quoted "1.0"
      [Sample.tagged_rule] [Sample.sinkless_match] [Sample.syntax_error]
      Sample.with_traces = Ok text
    /\ String.prefix ("{" +:+ Sample.nl +:+ "  " +:+ Sample.quoted "$schema") text = true.
Proof. eexists. split; vm_compute; reflexivity. Qed.

(** * Further properties of the code *)

(** ** The snippet extractor and the flattener *)

Section FlattenerFacts.

Variable get_lines : string -> Z -> Z -> res (list string).

Local Abbreviation create := (_create_sarif_location_dict get_lines).
Local Abbreviation flatten := (_rec_taint_obj_to_thread_flow_locations_sarif get_lines).
Local Abbreviation step := (_taint_obj_intermediate_vars_to_thread_flow_locations_sarif get_lines).

Lemma bind_ret_r {A} (m : res A) : m ≫= (fun a => mret a) = m.
Proof. destruct m; reflexivity. Qed.

(** X1.  For a span that lies on one line, the extended snippet is the two
    lines before it (leading line breaks dropped) followed by the line and
    the two lines after it (trailing line breaks dropped), and the two
    offsets are the columns counted from the end of the text before. *)
Theorem one_line_span_snippet loc text before :
  line (end_ loc) = line (start loc) ->
  get_lines (path loc) (line (start loc)) (line (start loc) + 2) = Ok text ->
  get_lines (path loc) (line (start loc) - 2) (line (start loc) - 1) = Ok before ->
  _generate_taint_snippet get_lines loc
  = Ok (Py.lstrip_nl (Py.join before) +:+ Py.rstrip_nl (Py.join text),
        Py.len (Py.lstrip_nl (Py.join before)) + col (start loc),
        Py.len (Py.lstrip_nl (Py.join before)) + col (end_ loc)).
Proof.
  intros Hline Htext Hbefore. unfold _generate_taint_snippet.
  rewrite Hline, Htext. simpl. rewrite Hbefore. simpl.
  unfold Py.join at 1. simpl. reflexivity.
Qed.

(** X2.  A wrapper adds nothing: a taint object wrapped in any number of
    [CliMatchCallTrace] layers is flattened like the object itself. *)
Theorem wrappers_are_transparent (n : nat) var_type t rm :
  _rec_taint_obj_to_thread_flow_locations_sarif get_lines var_type
    (Nat.iter n CliMatchCallTrace t) rm
  = _rec_taint_obj_to_thread_flow_locations_sarif get_lines var_type t rm.
Proof.
  induction n as [|n IH]; [reflexivity|].
  simpl Nat.iter.
  change (flatten var_type (CliMatchCallTrace (Nat.iter n CliMatchCallTrace t)) rm)
    with (flatten var_type (Nat.iter n CliMatchCallTrace t) rm ≫= fun a => mret a).
  rewrite bind_ret_r. exact IH.
Qed.

Lemma create_level_0 var_type snippet loc rm d :
  create var_type snippet loc rm 0 = Ok d ->
  exists ext s e, d = location_dict var_type snippet loc rm 0 ext s e.
Proof.
  intros H. apply create_Ok in H as (ext & s & e & _ & ->); [|lia]. eauto.
Qed.

Lemma steps_at_level_0 rm (vars : list CliMatchIntermediateVar) (l : list json) :
  mapM (fun iv => step iv rm) vars = Ok l ->
  Forall (fun d => exists sn loc ext s e,
            d = location_dict "Propagator " sn loc rm 0 ext s e) l.
Proof.
  intros H%mapM_Ok. induction H as [|iv d vars l Hd _ IH]; constructor; auto.
  apply create_level_0 in Hd as (ext & s & e & ->). eauto 6.
Qed.

(** X3.  Every location of a flattened taint object is either built with
    the role the flattener was called with, or is a "Propagator " location
    at nesting level 0. *)
Theorem flattened_roles rm t : forall var_type l,
  flatten var_type t rm = Ok l ->
  Forall (fun d => exists role sn loc lvl ext s e,
            d = location_dict role sn loc rm lvl ext s e
            /\ (role = var_type \/ role = "Propagator " /\ lvl = 0)) l.
Proof.
  induction t as [|loc sn|loc sn vars inner IH|value IH]; intros var_type l H; simpl in H.
  - injection H as <-. constructor.
  - destruct (String.eqb (Py.lower var_type) "sink"); ok_inv; subst l; simpl;
      repeat constructor;
      match goal with H : create _ _ _ _ _ = Ok _ |- _ =>
        apply create_Ok in H as (ext & s & e & _ & ->); [|lia] end;
      eauto 10.
  - ok_inv. subst. rewrite !Forall_app. split; [split|].
    + eauto.
    + match goal with H : mapM _ _ = Ok _ |- _ => apply steps_at_level_0 in H as Hs end.
      eapply Forall_impl; [exact Hs|]. intros d (sn' & loc' & ext & s & e & ->).
      eauto 12.
    + repeat constructor.
      match goal with H : create _ _ _ _ _ = Ok _ |- _ =>
        apply create_level_0 in H as (ext & s & e & ->) end.
      eauto 12.
  - ok_inv. subst. eauto.
Qed.

(** X4.  With a role other than "sink" (in any capitalisation), every
    location of a flattened taint object is at nesting level 0. *)
Theorem other_roles_stay_at_level_0 rm t : forall var_type l,
  Py.lower var_type <> "sink" ->
  flatten var_type t rm = Ok l ->
  Forall (fun d => field "nestingLevel" d = Some (JInt 0)) l.
Proof.
  induction t as [|loc sn|loc sn vars inner IH|value IH];
    intros var_type l Hrole H; simpl in H.
  - injection H as <-. constructor.
  - apply String.eqb_neq in Hrole. rewrite Hrole in H. ok_inv. subst l.
    match goal with H : create _ _ _ _ _ = Ok _ |- _ =>
      apply create_level_0 in H as (ext & s & e & ->) end.
    repeat constructor.
  - ok_inv. subst. rewrite !Forall_app. split; [split|].
    + eauto.
    + match goal with H : mapM _ _ = Ok _ |- _ => apply steps_at_level_0 in H as Hs end.
      eapply Forall_impl; [exact Hs|]. intros d (sn' & loc' & ext & s & e & ->).
      reflexivity.
    + match goal with H : create _ _ _ _ _ = Ok _ |- _ =>
        apply create_level_0 in H as (ext & s & e & ->) end.
      repeat constructor.
  - ok_inv. subst. eauto.
Qed.

(** X5.  A call is flattened into the locations of its inner trace, then
    one location per call-site variable, then its own location, which is a
    "Propagator " at level 0 with the call's own snippet whatever the role
    being flattened, the role "Sink" included. *)
Theorem call_is_flattened_inner_first var_type loc sn vars inner rm l :
  flatten var_type (CliCall loc sn vars inner) rm = Ok l ->
  exists nested steps ext s e,
    flatten var_type inner rm = Ok nested
    /\ mapM (fun iv => step iv rm) vars = Ok steps
    /\ List.length steps = List.length vars
    /\ l = nested ++ steps
             ++ [location_dict "Propagator " (Py.join sn) loc rm 0 ext s e].
Proof.
  intros H. simpl in H. ok_inv. subst.
  match goal with H : create _ _ _ _ _ = Ok _ |- _ =>
    apply create_level_0 in H as (ext & s & e & ->) end.
  match goal with H : mapM _ _ = Ok ?k |- _ =>
    pose proof (Forall2_length _ _ _ (mapM_Ok _ _ _ H)) as Hlen end.
  eexists _, _, ext, s, e. repeat split; eauto. rewrite <- app_assoc. reflexivity.
Qed.

(** X6.  When no file can be read, flattening raises the reader's
    exception as soon as the taint object has one step, and gives the empty
    list only for an object without steps. *)
Theorem unreadable_files_stop_the_flattener e rm t : forall var_type,
  (forall p a b, get_lines p a b = Raise e) ->
  flatten var_type t rm
  = match taint_steps t with [] => Ok [] | _ => Raise e end.
Proof.
  intros var_type Hread.
  assert (Hcreate : forall vt sn loc lvl, create vt sn loc rm lvl = Raise e).
  { intros. unfold _create_sarif_location_dict, _generate_taint_snippet.
    rewrite !Hread. reflexivity. }
  revert var_type.
  induction t as [|loc sn|loc sn vars inner IH|value IH]; intros var_type; simpl.
  - reflexivity.
  - destruct (String.eqb (Py.lower var_type) "sink"); rewrite Hcreate; reflexivity.
  - rewrite IH. destruct (taint_steps inner) as [|x xs]; simpl.
    + destruct vars as [|iv vars]; simpl.
      * rewrite Hcreate. reflexivity.
      * unfold _taint_obj_intermediate_vars_to_thread_flow_locations_sarif.
        rewrite !Hcreate. reflexivity.
    + reflexivity.
  - rewrite IH. destruct (taint_steps value); reflexivity.
Qed.

End FlattenerFacts.

(** ** Code flows *)

Section CodeflowFacts.

Variable get_lines : string -> Z -> Z -> res (list string).

Local Abbreviation codeflow := (_dataflow_trace_to_codeflow_sarif get_lines).

(** X7.  A taint source that is not a leaf or a call under exactly one
    wrapper (a bare leaf, a bare call, two wrappers) makes the code flow
    raise [UnboundLocalError], before any file is read. *)
Theorem codeflow_needs_one_wrapper rm dt :
  dataflow_trace rm = Some dt ->
  truthy (taint_source dt) = true ->
  summary_location (taint_source dt) = None ->
  codeflow rm = Raise UnboundLocalError.
Proof.
  intros Hdt Ht Hloc. unfold _dataflow_trace_to_codeflow_sarif. rewrite Hdt, Ht. simpl.
  destruct (taint_source dt) as [| | |[]]; try discriminate Hloc; reflexivity.
Qed.

(** X8.  For a source that is a leaf or a call under one wrapper, the code
    flow is the summary message, which names the source's terminal location
    and the start of the match, with the assembled locations as its only
    thread flow; it raises exactly when assembling the locations raises. *)
Theorem codeflow_of_located_source rm dt loc :
  dataflow_trace rm = Some dt ->
  summary_location (taint_source dt) = Some loc ->
  codeflow rm
  = (fun locations => Some (code_flow_record loc rm locations))
      <$> assembled_locations get_lines rm dt.
Proof.
  intros Hdt Hloc. unfold _dataflow_trace_to_codeflow_sarif. rewrite Hdt.
  rewrite (thread_flows_assembled _ _ _ Hdt).
  destruct (taint_source dt) as [| | |[]]; try discriminate Hloc;
    injection Hloc as ->; simpl;
    destruct (assembled_locations get_lines rm dt); reflexivity.
Qed.

(** X9.  The code flow is [None], without an exception, exactly for a
    match that has no dataflow trace or whose trace has no taint source. *)
Theorem codeflow_is_None_iff rm :
  _dataflow_trace_to_codeflow_sarif get_lines rm = Ok None
  <-> dataflow_trace rm = None
      \/ exists dt, dataflow_trace rm = Some dt /\ taint_source dt = PyNone.
Proof.
  unfold _dataflow_trace_to_codeflow_sarif. split.
  - destruct (dataflow_trace rm) as [dt|] eqn:Hdt; [|auto].
    destruct (taint_source dt) as [| | |[]] eqn:Hsrc; simpl; [eauto|..]; intros H;
      exfalso; try discriminate H;
      apply bind_Ok in H as (tfs & _ & H); destruct tfs as [[|]|]; discriminate H.
  - intros [-> | (dt & -> & ->)]; reflexivity.
Qed.

(** X28.  For a match with a trace the thread-flow function returns one
    thread flow, never none and never two: the assembled locations, also
    when the trace has no source (the intermediate variables and the
    reversed sink remain) and when the list is empty.  It returns [None]
    for a match without trace. *)
Theorem thread_flow_is_single rm :
  match dataflow_trace rm with
  | None => _dataflow_trace_to_thread_flows_sarif get_lines rm = Ok None
  | Some dt =>
      _dataflow_trace_to_thread_flows_sarif get_lines rm
      = (fun locations => Some [JDict [("locations", JList locations)]])
          <$> assembled_locations get_lines rm dt
      /\ (taint_source dt = PyNone ->
          intermediate_vars dt = None ->
          taint_sink dt = PyNone ->
          _dataflow_trace_to_thread_flows_sarif get_lines rm
          = Ok (Some [JDict [("locations", JList [])]]))
  end.
Proof.
  destruct (dataflow_trace rm) as [dt|] eqn:Hdt.
  - split; [apply thread_flows_assembled, Hdt|].
    intros Hsrc Hvars Hsink. rewrite (thread_flows_assembled _ _ _ Hdt).
    unfold assembled_locations. rewrite Hsrc, Hvars, Hsink. reflexivity.
  - unfold _dataflow_trace_to_thread_flows_sarif. rewrite Hdt. reflexivity.
Qed.

End CodeflowFacts.

(** ** The fields of a result *)

Section ResultRecordFacts.

Variable get_lines : string -> Z -> Z -> res (list string).

Local Abbreviation to_sarif := (_rule_match_to_sarif get_lines).
Local Abbreviation codeflow := (_dataflow_trace_to_codeflow_sarif get_lines).

Ltac record_cases rm :=
  unfold result_record;
  destruct (is_ignored rm), (_rule_match_to_sarif_fix rm) as [?fx|],
    (exposure_type rm) as [?ex|];
  try match goal with |- context [String.eqb ?ex ""] => destruct (String.eqb ex "") end;
  reflexivity.

Ltac record_fields rm :=
  unfold result_record;
  destruct (is_ignored rm), (_rule_match_to_sarif_fix rm) as [?fx|]; reflexivity.

(** The result of a match is its record, with the code flow attached when
    dataflow traces are asked for and the match has one. *)
Lemma to_sarif_record rm flag :
  to_sarif rm flag = result_record rm <$> (if flag then codeflow rm else Ok None).
Proof.
  unfold _rule_match_to_sarif. destruct flag; simpl; [|record_cases rm].
  destruct (dataflow_trace rm) as [dt|] eqn:Hdt; simpl.
  - destruct (codeflow rm) as [[cf|]|e] eqn:Hcf; simpl; [| record_cases rm | reflexivity].
    destruct (codeflow_Ok _ _ _ _ Hdt Hcf) as (loc & locations & _ & _ & _ & ->).
    simpl. record_cases rm.
  - unfold _dataflow_trace_to_codeflow_sarif. rewrite Hdt. simpl. record_cases rm.
Qed.

Lemma to_sarif_Ok rm flag r :
  to_sarif rm flag = Ok r -> exists code_flows, r = result_record rm code_flows.
Proof. rewrite to_sarif_record. intros (cfs & _ & ->)%fmap_Ok. eauto. Qed.

(** X10.  With dataflow traces asked for, serializing a match raises an
    exception exactly when building its code flow raises that exception;
    in particular a taint step in an unreadable file, or a malformed
    source, is not skipped. *)
Theorem result_raises_with_the_codeflow rm e :
  _rule_match_to_sarif get_lines rm true = Raise e
  <-> _dataflow_trace_to_codeflow_sarif get_lines rm = Raise e.
Proof.
  rewrite to_sarif_record. destruct (codeflow rm) as [cf|e']; simpl; split;
    intros H; try discriminate H; congruence.
Qed.

(** X11.  When the match has no dataflow trace, or a trace without taint
    source, asking for dataflow traces changes nothing: the result is the
    one built without them, and it has no [codeFlows] field. *)
Theorem toggle_without_source rm :
  dataflow_trace rm = None
  \/ (exists dt, dataflow_trace rm = Some dt /\ taint_source dt = PyNone) ->
  to_sarif rm true = to_sarif rm false
  /\ exists r, to_sarif rm true = Ok r /\ field "codeFlows" r = None.
Proof.
  intros H.
  assert (Hcf : codeflow rm = Ok None).
  { unfold _dataflow_trace_to_codeflow_sarif.
    destruct H as [-> | (dt & -> & ->)]; reflexivity. }
  rewrite !to_sarif_record, Hcf. simpl.
  split; [reflexivity|]. eexists. split; [reflexivity|].
  record_fields rm.
Qed.

(** X12.  A result has a [suppressions] field exactly when the match is
    ignored, and then it is the single entry of kind "inSource". *)
Theorem suppressions_iff_ignored rm flag r :
  to_sarif rm flag = Ok r ->
  field "suppressions" r
  = if is_ignored rm then Some (JList [JDict [("kind", JStr "inSource")]]) else None.
Proof. intros (cfs & ->)%to_sarif_Ok. destruct cfs; record_fields rm. Qed.

(** X13.  A result has a [fixes] field exactly when the match has at least
    one fixed line; the fix is single, deletes the span of the match and
    inserts the fixed lines joined by line breaks. *)
Theorem fixes_iff_fixed_lines rm flag r :
  to_sarif rm flag = Ok r ->
  match fixed_lines rm with
  | None | Some [] => field "fixes" r = None
  | Some fixed =>
      let replacement :=
        [Key "fixes"; Index 0; Key "artifactChanges"; Index 0;
         Key "replacements"; Index 0] in
      select (replacement ++ [Key "insertedContent"; Key "text"]) r
        = Some (JStr (Py.join_with (String Py.newline "") fixed))
      /\ select (replacement ++ [Key "deletedRegion"]) r
        = Some (JDict [("startLine", JInt (line (rm_start rm)));
                       ("startColumn", JInt (col (rm_start rm)));
                       ("endLine", JInt (line (rm_end rm)));
                       ("endColumn", JInt (col (rm_end rm)))])
      /\ select [Key "fixes"; Index 1] r = None
  end.
Proof.
  intros (cfs & ->)%to_sarif_Ok. unfold result_record, _rule_match_to_sarif_fix.
  destruct cfs, (is_ignored rm), (fixed_lines rm) as [[|x xs]|]; simpl;
    repeat split; reflexivity.
Qed.

(** X14.  The [properties] of a result hold the exposure of the match when
    it has one that is not empty, and are the empty dictionary otherwise. *)
Theorem properties_hold_exposure rm flag r :
  to_sarif rm flag = Ok r ->
  field "properties" r
  = Some (JDict match exposure_type rm with
                | Some exposure =>
                    if String.eqb exposure "" then [] else [("exposure", JStr exposure)]
                | None => []
                end).
Proof. intros (cfs & ->)%to_sarif_Ok. reflexivity. Qed.

(** X15.  Whatever the toggle, the trace, the suppression, the fix and the
    exposure, a result names its rule, carries the message and the
    fingerprint of the match, and has one location: the path of the match
    under %SRCROOT%, with the joined lines of the match, trailing white
    space removed, as snippet. *)
Theorem result_core_fields rm flag r :
  to_sarif rm flag = Ok r ->
  field "ruleId" r = Some (JStr (rule_id rm))
  /\ select [Key "message"; Key "text"] r = Some (JStr (message rm))
  /\ select [Key "fingerprints"; Key "matchBasedId/v1"] r = Some (JStr (match_based_id rm))
  /\ select [Key "locations"; Index 0; Key "physicalLocation"; Key "artifactLocation"] r
     = Some (JDict [("uri", JStr (rm_path rm)); ("uriBaseId", JStr "%SRCROOT%")])
  /\ select [Key "locations"; Index 0; Key "physicalLocation"; Key "region";
             Key "snippet"; Key "text"] r
     = Some (JStr (Py.rstrip (Py.join (lines rm))))
  /\ select [Key "locations"; Index 1] r = None.
Proof. intros (cfs & ->)%to_sarif_Ok. repeat split; reflexivity. Qed.

End ResultRecordFacts.

(** ** The descriptor of a rule *)

Section DescriptorFacts.

Variable repr : value -> string.
Variable set_iter : list string -> list string.

Local Abbreviation to_sarif := (_rule_to_sarif repr set_iter).

(** The descriptor is built from the level and the tags; nothing else can
    raise. *)
Lemma rule_to_sarif_descriptor rule :
  to_sarif rule
  = level ← _rule_to_sarif_severity rule;
    tags ← _rule_to_sarif_tags repr set_iter rule;
    mret (rule_descriptor repr rule level tags).
Proof.
  unfold _rule_to_sarif, rule_descriptor, rule_help, reference_links.
  destruct (_rule_to_sarif_severity rule) as [level|]; simpl; [|reflexivity].
  destruct (_rule_to_sarif_tags repr set_iter rule) as [tags|]; simpl; [|reflexivity].
  destruct (metadata rule !! "security-severity") as [sec|],
    (metadata rule !! "source") as [url|],
    (metadata rule !! "references") as [[s|[|x l]|d]|],
    (metadata rule !! "shortDescription") as [short|],
    (metadata rule !! "help") as [help|]; simpl;
    repeat match goal with
      | |- context [value_truthy ?v] => destruct (value_truthy v); simpl
      | |- context [String.eqb ?s ""] => destruct (String.eqb s ""); simpl
      | |- context [bool_decide (?d = ∅)] => destruct (bool_decide (d = ∅)); simpl
      end;
    reflexivity.
Qed.

Lemma to_sarif_rule_Ok rule j :
  to_sarif rule = Ok j ->
  exists level tags,
    _rule_to_sarif_severity rule = Ok level
    /\ _rule_to_sarif_tags repr set_iter rule = Ok tags
    /\ j = rule_descriptor repr rule level tags.
Proof.
  rewrite rule_to_sarif_descriptor. intros H.
  apply bind_Ok in H as (level & Hlevel & H). apply bind_Ok in H as (tags & Htags & H).
  injection H as <-. eauto.
Qed.

(** X16.  Serializing a rule raises exactly when its severity is not in the
    mapping or, the severity being known, when its tags raise; the
    references, the descriptions and the help never raise. *)
Theorem rule_raises_iff rule e :
  to_sarif rule = Raise e
  <-> _rule_to_sarif_severity rule = Raise e
      \/ (exists level, _rule_to_sarif_severity rule = Ok level)
          /\ _rule_to_sarif_tags repr set_iter rule = Raise e.
Proof.
  rewrite rule_to_sarif_descriptor.
  destruct (_rule_to_sarif_severity rule) as [level|e1]; simpl.
  - destruct (_rule_to_sarif_tags repr set_iter rule) as [tags|e2]; simpl; split.
    + discriminate.
    + intros [H | [_ H]]; discriminate H.
    + intros [= ->]. right. eauto.
    + intros [H | [_ [= ->]]]; [discriminate H | reflexivity].
  - split.
    + intros [= ->]. auto.
    + intros [[= ->] | [[level H] _]]; [reflexivity | discriminate H].
Qed.

(** X17.  The [help] of a rule is the help text of the metadata when that
    is not empty, and then holds no markdown even if the rule has a source
    or references; else it is the message with one markdown line per link,
    the source first; without any link there is no [help].  [helpUri] is
    the source of the metadata, when present. *)
Theorem rule_help_and_uri rule j :
  to_sarif rule = Ok j ->
  field "help" j = rule_help repr rule
  /\ field "helpUri" j = json_of_value <$> (metadata rule !! "source")
  /\ (forall h, metadata rule !! "help" = Some h -> value_truthy h = true ->
        field "help" j = Some (JDict [("text", json_of_value h)])).
Proof.
  intros (level & tags & _ & _ & ->)%to_sarif_rule_Ok.
  assert (Hhelp : field "help" (rule_descriptor repr rule level tags)
                  = rule_help repr rule).
  { unfold rule_descriptor.
    destruct (metadata rule !! "source"), (rule_help repr rule); reflexivity. }
  split; [exact Hhelp|]. split.
  - unfold rule_descriptor.
    destruct (metadata rule !! "source"), (rule_help repr rule); reflexivity.
  - intros h Hh Ht. rewrite Hhelp. unfold rule_help. rewrite Hh, Ht. reflexivity.
Qed.

(** X18.  A descriptor carries the rule's id as [id] and [name], the
    message as full description, the mapped severity as default level, the
    tags and, when the metadata has one, the security severity as it is;
    its short description is the one of the metadata when that is not
    empty, else "Semgrep Finding: " followed by the id. *)
Theorem rule_descriptor_fields rule j :
  to_sarif rule = Ok j ->
  exists level tags,
    _rule_to_sarif_severity rule = Ok level
    /\ _rule_to_sarif_tags repr set_iter rule = Ok tags
    /\ field "id" j = Some (JStr (id rule))
    /\ field "name" j = Some (JStr (id rule))
    /\ select [Key "fullDescription"; Key "text"] j = Some (JStr (rule_message rule))
    /\ select [Key "defaultConfiguration"; Key "level"] j = Some (JStr level)
    /\ select [Key "properties"; Key "precision"] j = Some (JStr "very-high")
    /\ select [Key "properties"; Key "tags"] j = Some (JList (JStr <$> tags))
    /\ select [Key "properties"; Key "security-severity"] j
       = json_of_value <$> (metadata rule !! "security-severity")
    /\ select [Key "shortDescription"; Key "text"] j
       = Some match metadata rule !! "shortDescription" with
              | Some short =>
                  if value_truthy short then json_of_value short
                  else JStr ("Semgrep Finding: " +:+ id rule)
              | None => JStr ("Semgrep Finding: " +:+ id rule)
              end.
Proof.
  intros (level & tags & Hlevel & Htags & ->)%to_sarif_rule_Ok.
  exists level, tags. split; [exact Hlevel|]. split; [exact Htags|].
  unfold rule_descriptor.
  destruct (metadata rule !! "security-severity"); repeat split; reflexivity.
Qed.

End DescriptorFacts.

(** ** More on the tags of a rule *)

Section TagFacts.

Variable repr : value -> string.
Variable set_iter : list string -> list string.

Local Abbreviation tags_of := (_rule_to_sarif_tags repr set_iter).

(** X19.  The tags depend on the metadata only through the set of strings
    they are drawn from: two rules whose metadata give the same strings,
    in whatever order and however often, get the same tag list. *)
Theorem tags_depend_on_the_set rule1 rule2 :
  (forall l, set_iter l ≡ₚ l) ->
  tags_schema (metadata rule1) = true ->
  tags_schema (metadata rule2) = true ->
  (forall t, t ∈ tag_pool (metadata rule1) <-> t ∈ tag_pool (metadata rule2)) ->
  _rule_to_sarif_tags repr set_iter rule1 = _rule_to_sarif_tags repr set_iter rule2.
Proof.
  intros Hiter Hs1 Hs2 Hsame.
  rewrite (tags_of_pool repr set_iter rule1 Hs1), (tags_of_pool repr set_iter rule2 Hs2).
  f_equal. apply sorted_order_irrelevant. rewrite !Hiter.
  apply NoDup_Permutation; auto using NoDup_remove_dups.
  intros t. rewrite !elem_of_remove_dups. apply Hsame.
Qed.

(** X20.  A [semgrep.policy] that is not a dictionary but contains "slug"
    (a string with that substring, a list with that item) makes the tags
    raise [TypeError]: the membership test succeeds and the subscript
    fails. *)
Theorem policy_must_be_a_dictionary rule policy :
  metadata rule !! "semgrep.policy" = Some policy ->
  is_dict policy = false ->
  value_contains "slug" policy = true ->
  _rule_to_sarif_tags repr set_iter rule = Raise TypeError.
Proof.
  intros Hp Hd Hc. unfold _rule_to_sarif_tags. rewrite Hp, Hc.
  destruct policy; [reflexivity | reflexivity | discriminate Hd].
Qed.

Lemma unhashable_item (xs : list value) x :
  x ∈ xs -> is_str x = false -> mapM hashable xs = Raise TypeError.
Proof.
  intros Hin Hx. induction xs as [|y xs IH]; [inversion Hin|].
  rewrite mapM_cons. apply elem_of_cons in Hin as [<- | Hin].
  - destruct x; [discriminate Hx | reflexivity | reflexivity].
  - rewrite (IH Hin). destruct y; reflexivity.
Qed.

(** X21.  A [cwe] that is a dictionary makes the tags raise [TypeError]:
    it is put into the result as it is, and cannot be a member of a set. *)
Theorem cwe_must_not_be_a_dictionary rule d :
  metadata rule !! "cwe" = Some (VDict d) ->
  _rule_to_sarif_tags repr set_iter rule = Raise TypeError.
Proof.
  intros Hcwe. unfold _rule_to_sarif_tags. rewrite Hcwe.
  match goal with |- ?m ≫= _ = _ =>
    assert (Hres : m = Raise TypeError
                   \/ exists result, m = Ok result /\ VDict d ∈ result) end.
  { destruct (metadata rule !! "owasp") as [[?|?|?]|],
      (metadata rule !! "confidence") as [c|]; try destruct (value_truthy c);
      (destruct (metadata rule !! "semgrep.policy") as [[ps|pl|p]|]; simpl;
       [destruct (Py.contains "slug" ps)
       |destruct (bool_decide ("slug" ∈ pl))
       |destruct (p !! "slug") eqn:Hslug
       |]; simpl; auto; right; eexists; split; try reflexivity;
       rewrite ?elem_of_app, ?elem_of_cons; auto 10). }
  destruct Hres as [-> | (result & -> & Hin)]; [reflexivity|]. simpl.
  unfold set. rewrite (unhashable_item _ (VDict d)); [reflexivity| |reflexivity].
  apply elem_of_app. left. exact Hin.
Qed.

End TagFacts.

(** ** Notifications *)

Lemma level_getitem_Ok key level :
  level_getitem error_to_sarif_level key = Ok level
  <-> key = JStr "error" /\ level = "error" \/ key = JStr "warn" /\ level = "warning".
Proof.
  unfold level_getitem, error_to_sarif_level. split.
  - destruct key as [| | |s| |]; try discriminate. simpl.
    destruct (decide ("error" = s)) as [<-|]; simpl; [intros [= <-]; auto|].
    destruct (decide ("warn" = s)) as [<-|]; simpl; [intros [= <-]; auto|].
    discriminate.
  - intros [[-> ->] | [-> ->]]; reflexivity.
Qed.

(** X22.  A structured error becomes a notification exactly when its
    dictionary has a type and its level is "error" or "warn"; the level of
    the notification is then "error" or "warning", its descriptor id is the
    type, and its text is the message, else the long message, else the
    short message, else the empty string, where a value that is absent or
    [None] does not count for the first two. *)
Theorem notification_iff error j :
  _semgrep_error_to_sarif_notification error = Ok j
  <-> exists type level,
        to_dict error !! "type" = Some type
        /\ (to_dict error !! "level" = Some (JStr "error") /\ level = "error"
            \/ to_dict error !! "level" = Some (JStr "warn") /\ level = "warning")
        /\ j = JDict
                 [("descriptor", JDict [("id", type)]);
                  ("message",
                   JDict [("text",
                           match to_dict error !! "message" with
                           | Some JNull | None =>
                               match to_dict error !! "long_msg" with
                               | Some JNull | None =>
                                   default (JStr "") (to_dict error !! "short_msg")
                               | Some long_msg => long_msg
                               end
                           | Some message => message
                           end)]);
                  ("level", JStr level)].
Proof.
  unfold _semgrep_error_to_sarif_notification, get_or_None. split.
  - intros H. apply bind_Ok in H as (type & Htype & H).
    apply bind_Ok in H as (key & Hkey & H). apply bind_Ok in H as (level & Hlevel & H).
    destruct (to_dict error !! "type") as [type'|]; [|discriminate Htype].
    injection Htype as ->.
    destruct (to_dict error !! "level") as [key'|]; [|discriminate Hkey].
    injection Hkey as ->. injection H as <-.
    exists type, level. split; [reflexivity|]. split.
    + apply level_getitem_Ok in Hlevel as [[-> ->] | [-> ->]]; auto.
    + destruct (to_dict error !! "message") as [[]|],
        (to_dict error !! "long_msg") as [[]|]; reflexivity.
  - intros (type & level & -> & Hlevel & ->).
    destruct Hlevel as [[-> ->] | [-> ->]]; simpl;
      destruct (to_dict error !! "message") as [[]|],
        (to_dict error !! "long_msg") as [[]|]; reflexivity.
Qed.

(** X23.  What is wrong with a structured error decides the exception: no
    type or no level, or a level that is a string, a number, a boolean or
    [None] other than "error" and "warn", is a [KeyError]; a level that is
    a list or a dictionary is a [TypeError]. *)
Theorem notification_errors error :
  match to_dict error !! "type", to_dict error !! "level" with
  | None, _ | Some _, None =>
      _semgrep_error_to_sarif_notification error = Raise KeyError
  | Some _, Some (JList _ | JDict _) =>
      _semgrep_error_to_sarif_notification error = Raise TypeError
  | Some _, Some (JStr s) =>
      s <> "error" -> s <> "warn" ->
      _semgrep_error_to_sarif_notification error = Raise KeyError
  | Some _, Some _ =>
      _semgrep_error_to_sarif_notification error = Raise KeyError
  end.
Proof.
  unfold _semgrep_error_to_sarif_notification.
  destruct (to_dict error !! "type"); [|reflexivity].
  destruct (to_dict error !! "level") as [[| | |s| |]|]; try reflexivity.
  intros H1 H2. simpl. unfold level_getitem, error_to_sarif_level. simpl.
  destruct (decide ("error" = s)); [congruence|].
  destruct (decide ("warn" = s)); [congruence|]. reflexivity.
Qed.

(** ** The document as a whole *)

Section FormatFacts.

Variable repr : value -> string.
Variable set_iter : list string -> list string.
Variable encode_basestring : string -> string.

(** X24.  Without dataflow traces, serializing a match never raises and
    reads no file: whatever the reader, the result is the record of the
    match without code flow. *)
Theorem result_without_traces get_lines rm :
  _rule_match_to_sarif get_lines rm false = Ok (result_record rm None).
Proof. rewrite to_sarif_record. reflexivity. Qed.

Lemma ret_bind {A B} (a : A) (f : A -> res B) : Ok a ≫= f = f a.
Proof. reflexivity. Qed.

Lemma results_without_traces get_lines (extra : gmap string bool) rule_matches :
  extra !! "dataflow_traces" = Some false ->
  mapM (fun rule_match =>
          dataflow_traces ←
            match extra !! "dataflow_traces" with
            | Some b => Ok b
            | None => Raise KeyError
            end;
          _rule_match_to_sarif get_lines rule_match dataflow_traces) rule_matches
  = Ok ((fun rm => result_record rm None) <$> rule_matches).
Proof.
  intros ->. induction rule_matches as [|rm rms IH]; [reflexivity|].
  rewrite mapM_cons, IH. cbn beta. rewrite ret_bind, to_sarif_record. reflexivity.
Qed.

(** X25.  With the toggle off, the document does not depend on the source
    files: two readers, whatever they return or raise, give the same
    output. *)
Theorem format_without_traces_reads_no_file
    get_lines1 get_lines2 version rules rule_matches errors extra :
  extra !! "dataflow_traces" = Some false ->
  format get_lines1 repr set_iter encode_basestring version rules rule_matches errors extra
  = format get_lines2 repr set_iter encode_basestring version rules rule_matches errors extra.
Proof.
  intros Hoff. unfold format.
  rewrite (results_without_traces get_lines1 _ _ Hoff),
    (results_without_traces get_lines2 _ _ Hoff). reflexivity.
Qed.

(** X26.  The toggle is looked up once per match: with no match the
    document does not depend on [extra] at all, and a missing
    "dataflow_traces" key is a [KeyError] as soon as there is one match and
    the rules could be serialized. *)
Theorem toggle_is_read_per_match get_lines version rules errors :
  (forall extra1 extra2,
     format get_lines repr set_iter encode_basestring version rules [] errors extra1
     = format get_lines repr set_iter encode_basestring version rules [] errors extra2)
  /\ (forall extra rule_match rule_matches rules_sarif,
        extra !! "dataflow_traces" = None ->
        mapM (_rule_to_sarif repr set_iter) rules = Ok rules_sarif ->
        format get_lines repr set_iter encode_basestring version rules
          (rule_match :: rule_matches) errors extra
        = Raise KeyError).
Proof.
  split.
  - intros extra1 extra2. reflexivity.
  - intros extra rm rms rules_sarif Hkey Hrules. unfold format.
    rewrite Hrules, mapM_cons, Hkey. reflexivity.
Qed.

(** X27.  The document is produced only if every part is: the formatter
    raises the exception of the first rule that raises, else of the first
    match, else of the first structured error, and returns a text exactly
    when rules, matches and errors can all be serialized. *)
Theorem format_raises_first_failure get_lines version rules rule_matches errors b extra :
  extra !! "dataflow_traces" = Some b ->
  match mapM (_rule_to_sarif repr set_iter) rules,
        mapM (fun rm => _rule_match_to_sarif get_lines rm b) rule_matches,
        mapM _semgrep_error_to_sarif_notification errors with
  | Raise e, _, _ | Ok _, Raise e, _ | Ok _, Ok _, Raise e =>
      format get_lines repr set_iter encode_basestring version rules rule_matches
        errors extra = Raise e
  | Ok _, Ok _, Ok _ =>
      exists text,
        format get_lines repr set_iter encode_basestring version rules rule_matches
          errors extra = Ok text
  end.
Proof.
  intros Hb. unfold format.
  assert (Hres :
    mapM (fun rule_match =>
            dataflow_traces ←
              match extra !! "dataflow_traces" with
              | Some b => Ok b
              | None => Raise KeyError
              end;
            _rule_match_to_sarif get_lines rule_match dataflow_traces) rule_matches
    = mapM (fun rm => _rule_match_to_sarif get_lines rm b) rule_matches).
  { apply mapM_ext. intros rm. rewrite Hb. reflexivity. }
  rewrite Hres. clear Hres.
  destruct (mapM (_rule_to_sarif repr set_iter) rules); simpl; [|reflexivity].
  destruct (mapM (fun rm => _rule_match_to_sarif get_lines rm b) rule_matches); simpl;
    [|reflexivity].
  destruct (mapM _semgrep_error_to_sarif_notification errors); simpl; [eauto|reflexivity].
Qed.

End FormatFacts.

(** ** The further properties at sample inputs *)

Lemma one_line_span_snippet_witness :
  let before := ["l1" +:+ Sample.nl; "l2" +:+ Sample.nl] in
  let text := ["l3" +:+ Sample.nl; "l4" +:+ Sample.nl; "l5" +:+ Sample.nl] in
  _generate_taint_snippet Sample.read Sample.A
  = Ok (Py.lstrip_nl (Py.join before) +:+ Py.rstrip_nl (Py.join text),
        Py.len (Py.lstrip_nl (Py.join before)) + 1,
        Py.len (Py.lstrip_nl (Py.join before)) + 2).
Proof.
  intros before text.
  apply (one_line_span_snippet Sample.read Sample.A text before); reflexivity.
Defined.

Lemma flattened_roles_witness :
  exists l,
    _rec_taint_obj_to_thread_flow_locations_sarif Sample.read "Sink" Cases.call
      Sample.synthetic_match = Ok l
    /\ Forall (fun d => exists role sn loc lvl ext s e,
                 d = location_dict role sn loc Sample.synthetic_match lvl ext s e
                 /\ (role = "Sink" \/ role = "Propagator " /\ lvl = 0)) l.
Proof.
  eexists. split; [reflexivity|].
  apply (flattened_roles Sample.read Sample.synthetic_match Cases.call "Sink").
  reflexivity.
Defined.

Lemma other_roles_stay_at_level_0_witness :
  exists l,
    _rec_taint_obj_to_thread_flow_locations_sarif Sample.read "Source" Cases.call
      Sample.synthetic_match = Ok l
    /\ Forall (fun d => field "nestingLevel" d = Some (JInt 0)) l.
Proof.
  eexists. split; [reflexivity|].
  apply (other_roles_stay_at_level_0 Sample.read Sample.synthetic_match Cases.call
           "Source"); [vm_compute; discriminate | reflexivity].
Defined.

Lemma call_is_flattened_inner_first_witness :
  exists l nested steps ext s e,
    _rec_taint_obj_to_thread_flow_locations_sarif Sample.read "Sink" Cases.call
      Sample.synthetic_match = Ok l
    /\ _rec_taint_obj_to_thread_flow_locations_sarif Sample.read "Sink"
         (CliLoc Sample.C ["c"]) Sample.synthetic_match = Ok nested
    /\ mapM (fun iv =>
               _taint_obj_intermediate_vars_to_thread_flow_locations_sarif
                 Sample.read iv Sample.synthetic_match)
            [ {| location := Sample.D; content := ["d"] |} ] = Ok steps
    /\ List.length steps = 1%nat
    /\ l = nested ++ steps
             ++ [location_dict "Propagator " "e" Sample.E Sample.synthetic_match 0 ext s e].
Proof.
  eexists.
  destruct (call_is_flattened_inner_first Sample.read "Sink" Sample.E ["e"]
              [ {| location := Sample.D; content := ["d"] |} ] (CliLoc Sample.C ["c"])
              Sample.synthetic_match _ eq_refl)
    as (nested & steps & ext & s & e & H1 & H2 & H3 & H4).
  exists nested, steps, ext, s, e. repeat split; assumption.
Defined.

Lemma unreadable_files_stop_the_flattener_witness :
  _rec_taint_obj_to_thread_flow_locations_sarif Cases.no_files "Sink" Cases.call
    Sample.synthetic_match = Raise OSError
  /\ _rec_taint_obj_to_thread_flow_locations_sarif Cases.no_files "Sink"
       (CliMatchCallTrace PyNone) Sample.synthetic_match = Ok [].
Proof.
  split.
  - apply (unreadable_files_stop_the_flattener Cases.no_files OSError
             Sample.synthetic_match Cases.call "Sink"). reflexivity.
  - apply (unreadable_files_stop_the_flattener Cases.no_files OSError
             Sample.synthetic_match (CliMatchCallTrace PyNone) "Sink"). reflexivity.
Defined.

Lemma codeflow_needs_one_wrapper_witness :
  _dataflow_trace_to_codeflow_sarif Sample.read Sample.synthetic_match
  = Raise UnboundLocalError.
Proof.
  apply (codeflow_needs_one_wrapper Sample.read Sample.synthetic_match
           Sample.synthetic_trace); reflexivity.
Defined.

Lemma codeflow_of_located_source_witness :
  _dataflow_trace_to_codeflow_sarif Sample.read Sample.sinkless_match
  = (fun locations => Some (code_flow_record Sample.A Sample.sinkless_match locations))
      <$> assembled_locations Sample.read Sample.sinkless_match Sample.sinkless_trace.
Proof.
  apply (codeflow_of_located_source Sample.read Sample.sinkless_match
           Sample.sinkless_trace Sample.A); reflexivity.
Defined.

Lemma toggle_without_source_witness :
  _rule_match_to_sarif Sample.read Cases.fixed_match true
  = _rule_match_to_sarif Sample.read Cases.fixed_match false
  /\ exists r,
       _rule_match_to_sarif Sample.read Cases.fixed_match true = Ok r
       /\ field "codeFlows" r = None.
Proof.
  apply (toggle_without_source Sample.read Cases.fixed_match). left. reflexivity.
Defined.

Lemma suppressions_iff_ignored_witness :
  field "suppressions" (result_record Cases.fixed_match None)
  = Some (JList [JDict [("kind", JStr "inSource")]]).
Proof.
  apply (suppressions_iff_ignored Sample.read Cases.fixed_match false). reflexivity.
Defined.

Lemma fixes_iff_fixed_lines_witness :
  let r := result_record Cases.fixed_match None in
  let replacement :=
    [Key "fixes"; Index 0; Key "artifactChanges"; Index 0; Key "replacements"; Index 0] in
  select (replacement ++ [Key "insertedContent"; Key "text"]) r
    = Some (JStr (Py.join_with Sample.nl ["y = parse(x)"; "run(y)"]))
  /\ select (replacement ++ [Key "deletedRegion"]) r
    = Some (JDict [("startLine", JInt 8); ("startColumn", JInt 1);
                   ("endLine", JInt 8); ("endColumn", JInt 9)])
  /\ select [Key "fixes"; Index 1] r = None.
Proof.
  intros r replacement.
  apply (fixes_iff_fixed_lines Sample.read Cases.fixed_match false r). reflexivity.
Defined.

Lemma properties_hold_exposure_witness :
  field "properties" (result_record Cases.fixed_match None)
  = Some (JDict [("exposure", JStr "reachable")]).
Proof.
  apply (properties_hold_exposure Sample.read Cases.fixed_match false). reflexivity.
Defined.

Lemma result_core_fields_witness :
  let r := result_record Cases.fixed_match None in
  field "ruleId" r = Some (JStr "rules.eval")
  /\ select [Key "message"; Key "text"] r = Some (JStr "eval of user input")
  /\ select [Key "fingerprints"; Key "matchBasedId/v1"] r = Some (JStr "89ab4567")
  /\ select [Key "locations"; Index 0; Key "physicalLocation"; Key "artifactLocation"] r
     = Some (JDict [("uri", JStr "m.py"); ("uriBaseId", JStr "%SRCROOT%")])
  /\ select [Key "locations"; Index 0; Key "physicalLocation"; Key "region";
             Key "snippet"; Key "text"] r
     = Some (JStr (Py.rstrip (Py.join (lines Cases.fixed_match))))
  /\ select [Key "locations"; Index 1] r = None.
Proof.
  intros r.
  apply (result_core_fields Sample.read Cases.fixed_match false r). reflexivity.
Defined.

(** The snippet of the sample result has lost its two spaces and its line
    break. *)
Example fixed_match_snippet :
  Py.rstrip (Py.join (lines Cases.fixed_match)) = "eval(x)".
Proof. reflexivity. Qed.

Lemma rule_help_and_uri_witness :
  exists j,
    _rule_to_sarif Sample.no_repr Sample.reversed Cases.documented_rule = Ok j
    /\ field "help" j = Some (JDict [("text", JStr "Do not call eval.")])
    /\ field "helpUri" j = Some (JStr "https://semgrep.dev/r/rules.eval").
Proof.
  eexists. split; [reflexivity|].
  destruct (rule_help_and_uri Sample.no_repr Sample.reversed Cases.documented_rule _
              eq_refl) as (Hhelp & Huri & _).
  split; [exact Hhelp | exact Huri].
Defined.

Lemma rule_descriptor_fields_witness :
  exists j,
    _rule_to_sarif Sample.no_repr Sample.reversed Cases.documented_rule = Ok j
    /\ field "id" j = Some (JStr "rules.eval")
    /\ select [Key "defaultConfiguration"; Key "level"] j = Some (JStr "note")
    /\ select [Key "properties"; Key "tags"] j = Some (JList [])
    /\ select [Key "properties"; Key "security-severity"] j = Some (JStr "7.5")
    /\ select [Key "shortDescription"; Key "text"] j = Some (JStr "eval").
Proof.
  eexists. split; [reflexivity|].
  destruct (rule_descriptor_fields Sample.no_repr Sample.reversed Cases.documented_rule _
              eq_refl)
    as (level & tags & Hlevel & Htags & Hid & _ & _ & Hl & _ & Ht & Hs & Hd).
  injection Hlevel as <-. injection Htags as <-.
  repeat split; assumption.
Defined.

Lemma tags_depend_on_the_set_witness :
  _rule_to_sarif_tags Sample.no_repr Sample.reversed Sample.tagged_rule
  = _rule_to_sarif_tags Sample.no_repr Sample.reversed Cases.retagged_rule.
Proof.
  apply (tags_depend_on_the_set Sample.no_repr Sample.reversed
           Sample.tagged_rule Cases.retagged_rule).
  - exact reversed_Permutation.
  - vm_compute. reflexivity.
  - vm_compute. reflexivity.
  - intros t.
    let p1 := eval vm_compute in (tag_pool (metadata Sample.tagged_rule)) in
    let p2 := eval vm_compute in (tag_pool (metadata Cases.retagged_rule)) in
    change (t ∈ p1 <-> t ∈ p2).
    rewrite !elem_of_cons, !elem_of_nil. tauto.
Defined.

Lemma policy_must_be_a_dictionary_witness :
  _rule_to_sarif_tags Sample.no_repr Sample.reversed Cases.string_policy_rule
  = Raise TypeError.
Proof.
  apply (policy_must_be_a_dictionary Sample.no_repr Sample.reversed
           Cases.string_policy_rule (VStr "no-slug-here")); reflexivity.
Defined.

Lemma cwe_must_not_be_a_dictionary_witness :
  _rule_to_sarif_tags Sample.no_repr Sample.reversed Cases.dict_cwe_rule
  = Raise TypeError.
Proof.
  apply (cwe_must_not_be_a_dictionary Sample.no_repr Sample.reversed
           Cases.dict_cwe_rule {[ "id" := "CWE-79" ]}). reflexivity.
Defined.

Lemma format_without_traces_reads_no_file_witness :
  format Sample.read Sample.no_repr Sample.reversed Sample.quoted "1.0"
    [Sample.tagged_rule] [Sample.sinkless_match] [Sample.syntax_error]
    Cases.without_traces
  = format Cases.no_files Sample.no_repr Sample.reversed Sample.quoted "1.0"
      [Sample.tagged_rule] [Sample.sinkless_match] [Sample.syntax_error]
      Cases.without_traces.
Proof.
  apply (format_without_traces_reads_no_file Sample.no_repr Sample.reversed
           Sample.quoted Sample.read Cases.no_files). reflexivity.
Defined.

Lemma format_raises_first_failure_witness :
  (exists text,
     format Sample.read Sample.no_repr Sample.reversed Sample.quoted "1.0"
       [Sample.tagged_rule] [Sample.sinkless_match] [Sample.syntax_error]
       Sample.with_traces = Ok text)
  /\ format Sample.read Sample.no_repr Sample.reversed Sample.quoted "1.0"
       [Sample.tagged_rule] [Sample.synthetic_match] [Cases.levelless_error]
       Sample.with_traces = Raise UnboundLocalError
  /\ format Sample.read Sample.no_repr Sample.reversed Sample.quoted "1.0"
       [Sample.tagged_rule] [Sample.sinkless_match] [Cases.levelless_error]
       Sample.with_traces = Raise KeyError.
Proof.
  split; [|split].
  - exact (format_raises_first_failure Sample.no_repr Sample.reversed Sample.quoted
             Sample.read "1.0" [Sample.tagged_rule] [Sample.sinkless_match]
             [Sample.syntax_error] true Sample.with_traces eq_refl).
  - exact (format_raises_first_failure Sample.no_repr Sample.reversed Sample.quoted
             Sample.read "1.0" [Sample.tagged_rule] [Sample.synthetic_match]
             [Cases.levelless_error] true Sample.with_traces eq_refl).
  - exact (format_raises_first_failure Sample.no_repr Sample.reversed Sample.quoted
             Sample.read "1.0" [Sample.tagged_rule] [Sample.sinkless_match]
             [Cases.levelless_error] true Sample.with_traces eq_refl).
Defined.
